(** * Stock performance dashboard: returns, statistics and series selection

    A shallow embedding of [dashboard.py].  The script is a Streamlit page:
    it loads a ticker list, downloads closing prices for one market-cap
    group, turns them into cumulative percentage returns, appends four
    row-wise statistics and draws the selected series.

    Numbers are pandas/NumPy [float64] values.  The embedding is written
    over a small interface of float operations ([Number]), instantiated with
    the kernel's binary64 floats ([float64]): the IEEE 754 operations NumPy
    applies cell by cell, rounding, infinities and NaN included. *)

From Stdlib Require Import List String Ascii Bool ZArith Lia Arith.
From Stdlib Require Import Floats QArith Permutation Sorted.
Import ListNotations.
Close Scope Q_scope.
Open Scope string_scope.

(** ** Numbers *)

(** The float operations the script reaches through pandas. [ltb a b] and
    [leb a b] are Python's [a < b] and [a <= b]; [is_nan] is pandas' [isna]
    on a float cell, NaN being the missing marker of a float column. *)
Class Number (num : Type) := {
  nan : num;
  of_Z : Z -> num;
  add : num -> num -> num;
  sub : num -> num -> num;
  mul : num -> num -> num;
  div : num -> num -> num;
  ltb : num -> num -> bool;
  leb : num -> num -> bool;
  is_nan : num -> bool
}.

(** [numpy.sqrt], used by [std] only. *)
Class Sqrt (num : Type) := { sqrt : num -> num }.

(** Python's [a > b]. *)
Definition gtb {num} `{Number num} (a b : num) : bool := ltb b a.

(** IEEE 754 binary64, as NumPy's [float64]. *)
#[export] Instance float64 : Number float := {
  nan := PrimFloat.nan;
  of_Z := fun z => PrimFloat.of_uint63 (Uint63.of_Z z);
  add := PrimFloat.add;
  sub := PrimFloat.sub;
  mul := PrimFloat.mul;
  div := PrimFloat.div;
  ltb := PrimFloat.ltb;
  leb := PrimFloat.leb;
  is_nan := PrimFloat.is_nan
}.

#[export] Instance float64_sqrt : Sqrt float := { sqrt := PrimFloat.sqrt }.

(** ** Laws of the float operations *)

(** What the proofs use of NaN: it is the only value [is_nan] accepts, it
    propagates through division and subtraction; and the constant
    computations of the first row of returns. *)
Class NanLaws {num : Type} (N : Number num) : Prop := {
  is_nan_nan : is_nan nan = true;
  is_nan_eq : forall x, is_nan x = true -> x = nan;
  div_nan_l : forall x, div nan x = nan;
  div_nan_r : forall x, div x nan = nan;
  sub_nan_l : forall x, sub nan x = nan;
  zero_not_nan : is_nan (of_Z 0) = false;
  one_not_nan : is_nan (of_Z 1) = false;
  one_plus_zero : add (of_Z 1) (of_Z 0) = of_Z 1;
  one_minus_one : sub (of_Z 1) (of_Z 1) = of_Z 0;
  zero_times_hundred : mul (of_Z 0) (of_Z 100) = of_Z 0
}.

(** The strict order on values that are not NaN. *)
Class OrderLaws {num : Type} (N : Number num) : Prop := {
  ltb_irrefl : forall x, ltb x x = false;
  ltb_asym : forall x y, ltb x y = true -> ltb y x = false;
  ltb_negtrans : forall x y z,
    is_nan y = false -> ltb y x = false -> ltb z y = false -> ltb z x = false
}.

Class SqrtLaws {num : Type} (N : Number num) (S : Sqrt num) : Prop := {
  sqrt_nan : sqrt nan = nan;
  sqrt_nonneg : forall x, is_nan (sqrt x) = true \/ leb (of_Z 0) (sqrt x) = true
}.

(** ** Exceptions *)

(** The Python exceptions the modelled lines can raise. *)
Inductive exn : Type :=
| KeyError (label : string)
| IndexError
| TypeError.

Inductive result (A : Type) : Type :=
| Ok (a : A)
| Raise (e : exn).
Arguments Ok {A} a.
Arguments Raise {A} e.

Definition result_bind {A B} (r : result A) (k : A -> result B) : result B :=
  match r with
  | Ok a => k a
  | Raise e => Raise e
  end.

Declare Scope result_scope.
Delimit Scope result_scope with result.
Notation "x <- r ;; k" := (result_bind r (fun x => k))
  (at level 61, r at next level, right associativity) : result_scope.

(** ** pandas: Series and DataFrame *)

Section Pandas.
Context {num : Type} {N : Number num}.

(** A float column. *)
Definition Series : Type := list num.

(** A frame: the row index (trading dates as day numbers) and the named
    columns in their order; every column holds one cell per index entry,
    NaN where a price is missing. *)
Record DataFrame : Type := mkDataFrame {
  index : list Z;
  columns : list (string * Series)
}.

Definition names (df : DataFrame) : list string := map fst (columns df).

(** Every column is aligned with the index. *)
Definition aligned (df : DataFrame) : Prop :=
  Forall (fun c => List.length (snd c) = List.length (index df)) (columns df).

(** [df.empty]: one of the two axes has no entry. *)
Definition empty (df : DataFrame) : bool :=
  (List.length (index df) =? 0)%nat || (List.length (columns df) =? 0)%nat.

Definition mem (s : string) (l : list string) : bool :=
  existsb (String.eqb s) l.

(** [df[name]], for a frame whose labels are pairwise distinct, as those
    of the page are when the price source answers with one column per
    symbol: the column under the label. *)
Definition getitem (df : DataFrame) (name : string) : result Series :=
  match find (fun c => String.eqb (fst c) name) (columns df) with
  | Some c => Ok (snd c)
  | None => Raise (KeyError name)
  end.

Fixpoint replace_col (name : string) (s : Series) (cs : list (string * Series))
  : list (string * Series) :=
  match cs with
  | [] => []
  | c :: cs' =>
      if String.eqb (fst c) name then (name, s) :: replace_col name s cs'
      else c :: replace_col name s cs'
  end.

(** [df[name] = s]: an existing label is overwritten in place, a new one
    is appended as the last column. *)
Definition setitem (df : DataFrame) (name : string) (s : Series) : DataFrame :=
  if mem name (names df)
  then mkDataFrame (index df) (replace_col name s (columns df))
  else mkDataFrame (index df) (columns df ++ [(name, s)]).

(** [df.drop(columns=labels)]: a label that is not a column raises. *)
Definition drop (labels : list string) (df : DataFrame) : result DataFrame :=
  match find (fun l => negb (mem l (names df))) labels with
  | Some l => Raise (KeyError l)
  | None =>
      Ok (mkDataFrame (index df)
            (filter (fun c => negb (mem (fst c) labels)) (columns df)))
  end.

(** Cell-wise arithmetic with a scalar, column by column. *)
Definition map_frame (f : Series -> Series) (df : DataFrame) : DataFrame :=
  mkDataFrame (index df) (map (fun c => (fst c, f (snd c))) (columns df)).

(** [s.fillna(v)]. *)
Definition fillna (v : num) (s : Series) : Series :=
  map (fun x => if is_nan x then v else x) s.

(** [s.ffill()]: a missing cell takes the last present value above it;
    leading missing cells stay missing. *)
Fixpoint ffill_from (prev : num) (s : Series) : Series :=
  match s with
  | [] => []
  | x :: s' =>
      if is_nan x then prev :: ffill_from prev s' else x :: ffill_from x s'
  end.

Definition ffill (s : Series) : Series := ffill_from nan s.

(** [s.shift(1)]. *)
Definition shift (s : Series) : Series :=
  match s with
  | [] => []
  | _ :: _ => nan :: removelast s
  end.

(** [pct_change()] is called with no argument, so what it does with missing
    prices is the default of the installed pandas: before 3.0 the column is
    forward filled first ([fill_method='pad']), from 3.0 on it is not. *)
Inductive fill_method : Type := Pad | NoFill.

Definition zip_with (f : num -> num -> num) (a b : Series) : Series :=
  map (fun p => f (fst p) (snd p)) (combine a b).

Definition fill_missing (fm : fill_method) (s : Series) : Series :=
  match fm with
  | Pad => ffill s
  | NoFill => s
  end.

(** [s.pct_change()]: [data / data.shift(1) - 1]. *)
Definition pct_change (fm : fill_method) (s : Series) : Series :=
  let data := fill_missing fm s in
  zip_with (fun a b => sub (div a b) (of_Z 1)) data (shift data).

(** [numpy.cumprod]. *)
Fixpoint accumulate (acc : num) (s : Series) : Series :=
  match s with
  | [] => []
  | x :: s' => let r := mul acc x in r :: accumulate r s'
  end.

Definition np_cumprod (s : Series) : Series :=
  match s with
  | [] => []
  | x :: s' => x :: accumulate x s'
  end.

(** [s.cumprod()] ([skipna=True]): missing cells count as 1 in the running
    product and are missing in the result. *)
Definition cumprod (s : Series) : Series :=
  let vals := map (fun x => if is_nan x then of_Z 1 else x) s in
  map (fun p => if is_nan (fst p) then nan else snd p) (combine s (np_cumprod vals)).

(** Lines 76-77: daily returns, then compounded percentage returns. *)
Definition daily_returns (fm : fill_method) (s : Series) : Series :=
  fillna (of_Z 0) (pct_change fm s).

Definition cumulative_pct (r : Series) : Series :=
  map (fun x => mul (sub x (of_Z 1)) (of_Z 100))
      (cumprod (map (fun x => add (of_Z 1) x) r)).

Definition pct_df (fm : fill_method) (price_df : DataFrame) : DataFrame :=
  map_frame (daily_returns fm) price_df.

Definition total_pct_df (fm : fill_method) (price_df : DataFrame) : DataFrame :=
  map_frame cumulative_pct (pct_df fm price_df).

(** *** Row-wise reductions ([axis=1], [skipna=True]) *)

Definition row (df : DataFrame) (i : nat) : list num :=
  map (fun c => nth i (snd c) nan) (columns df).

Definition rows (df : DataFrame) : list (list num) :=
  map (row df) (seq 0 (List.length (index df))).

Definition notna (vals : list num) : list num :=
  filter (fun x => negb (is_nan x)) vals.

(** [numpy.sum] of a row, left to right (NumPy's blocking of long rows
    changes the rounding of the sum only). *)
Definition np_sum (vals : list num) : num :=
  match vals with
  | [] => of_Z 0
  | x :: vals' => fold_left add vals' x
  end.

(** [nanops.nanmean]. *)
Definition nanmean (vals : list num) : num :=
  let count := List.length (notna vals) in
  let the_sum := np_sum (fillna (of_Z 0) vals) in
  if (count =? 0)%nat then nan else div the_sum (of_Z (Z.of_nat count)).

(** A stable ascending insertion sort by a float key, none of the keys
    being NaN: an element goes in front of the first one that is not below
    it. *)
Fixpoint insert_by {A : Type} (key : A -> num) (x : A) (l : list A) : list A :=
  match l with
  | [] => [x]
  | y :: l' => if ltb (key y) (key x) then y :: insert_by key x l' else x :: y :: l'
  end.

Definition sort_by {A : Type} (key : A -> num) (l : list A) : list A :=
  fold_right (insert_by key) [] l.

Definition sort (l : list num) : list num := sort_by (fun x => x) l.

(** [numpy.nanmedian] of a row: the middle of the present values, the two
    middle ones averaged; an odd count averages the middle with itself. *)
Definition nanmedian (vals : list num) : num :=
  let sorted := sort (notna vals) in
  let count := List.length sorted in
  if (count =? 0)%nat then nan
  else
    let high := nth (count / 2) sorted nan in
    let low := if Nat.odd count then high else nth (count / 2 - 1) sorted nan in
    div (add low high) (of_Z 2).

(** [nanops.nanvar]: with [count <= ddof] both the count and the divisor
    are NaN; otherwise the squared deviations from the mean are summed and
    divided by [count - ddof]. *)
Definition nanvar (ddof : nat) (vals : list num) : num :=
  let n := List.length (notna vals) in
  let count := if (n <=? ddof)%nat then nan else of_Z (Z.of_nat n) in
  let d := if (n <=? ddof)%nat then nan
           else sub (of_Z (Z.of_nat n)) (of_Z (Z.of_nat ddof)) in
  let avg := div (np_sum (fillna (of_Z 0) vals)) count in
  let sqr := map (fun x => if is_nan x then of_Z 0
                           else let dev := sub avg x in mul dev dev) vals in
  div (np_sum sqr) d.

Context {S : Sqrt num}.

(** [nanops.nanstd]. *)
Definition nanstd (ddof : nat) (vals : list num) : num :=
  sqrt (nanvar ddof vals).

Definition mean_axis1 (df : DataFrame) : Series := map nanmean (rows df).
Definition median_axis1 (df : DataFrame) : Series := map nanmedian (rows df).
(** [df.std(axis=1)]: pandas' default [ddof=1]. *)
Definition std_axis1 (df : DataFrame) : Series := map (nanstd 1) (rows df).

(** Lines 79-88: the four statistic columns. *)
Definition annotate (cum : DataFrame) : result DataFrame :=
  (let df1 := setitem cum "mean_pct_chg" (mean_axis1 cum) in
   d1 <- drop ["mean_pct_chg"] df1 ;;
   let df2 := setitem df1 "median_pct_change" (median_axis1 d1) in
   d2 <- drop ["mean_pct_chg"; "median_pct_change"] df2 ;;
   let df3 := setitem df2 "std" (std_axis1 d2) in
   std <- getitem df3 "std" ;;
   Ok (setitem df3 "2std" (map (mul (of_Z 2)) std)))%result.

(** *** The ticker list (lines 31-60) *)

(** A cell of an object column: a string, or a number (NaN when the CSV
    field is empty). *)
Inductive cell : Type :=
| Str (s : string)
| Num (x : num).

Record stock_row : Type := mkRow {
  SYMBOL : cell;
  market_cap : num
}.

(** [stock_mcap_df.fillna(0)]: every missing cell of the frame becomes 0,
    in the object column SYMBOL too (pandas before 3.0; the market-cap
    column is a float column under every version). *)
Definition fillna_cell (c : cell) : cell :=
  match c with
  | Str s => Str s
  | Num x => Num (if is_nan x then of_Z 0 else x)
  end.

Definition fillna_row (r : stock_row) : stock_row :=
  mkRow (fillna_cell (SYMBOL r))
        (if is_nan (market_cap r) then of_Z 0 else market_cap r).

(** [sort_values(by="market_cap", ascending=False)], as pandas' [nargsort]
    does it: the rows whose key is present are reversed, sorted ascending
    and reversed again; rows with a missing key go last.  The ascending
    sort is stable here; NumPy's default quicksort leaves the order of
    equal keys open, which nothing below depends on. *)
Definition sort_values_desc (l : list stock_row) : list stock_row :=
  let nonnans := filter (fun r => negb (is_nan (market_cap r))) l in
  let nans := filter (fun r => is_nan (market_cap r)) l in
  rev (sort_by market_cap (rev nonnans)) ++ nans.

(** Lines 31-34; [reset_index(drop=True)] renumbers the rows, which a list
    does by itself. *)
Definition stock_mcap_df (csv : list stock_row) : list stock_row :=
  sort_values_desc (map fillna_row csv).

Definition group_size : nat := 200.

(** [math.ceil(len(stock_mcap_df) / group_size)]. *)
Definition total_groups (l : list stock_row) : nat :=
  (List.length l + (group_size - 1)) / group_size.

(** [stock_mcap_df.iloc[start_idx:end_idx]] for the group the select box
    returns, a number from 1 to [total_groups]. *)
Definition df_group (l : list stock_row) (group_no : nat) : list stock_row :=
  let start_idx := (group_no - 1) * group_size in
  firstn group_size (skipn start_idx l).

(** [[s + ".NS" for s in df_group["SYMBOL"].tolist()]]: a cell that is no
    string cannot be concatenated. *)
Fixpoint symbols (g : list stock_row) : result (list string) :=
  match g with
  | [] => Ok []
  | r :: g' =>
      match SYMBOL r with
      | Str s => (rest <- symbols g' ;; Ok ((s ++ ".NS") :: rest))%result
      | Num _ => Raise TypeError
      end
  end.

(** *** The chart (lines 113-183) *)

Record Line : Type := mkLine { dash : string; width : Z; color : string }.

Record Scatter : Type := mkScatter {
  x : list Z;
  y : Series;
  name : string;
  opacity : option Q;
  line : option Line
}.

Record Layout : Type := mkLayout {
  title : string;
  xaxis_title : string;
  yaxis_title : string;
  template : string;
  height : Z
}.

Record Figure : Type := mkFigure {
  data : list Scatter;
  layout : option Layout
}.

(** [go.Figure()], [fig.add_trace] and [fig.update_layout]. *)
Definition new_figure : Figure := mkFigure [] None.

Definition add_trace (fig : Figure) (t : Scatter) : Figure :=
  mkFigure (data fig ++ [t]) (layout fig).

Definition update_layout (fig : Figure) (l : Layout) : Figure :=
  mkFigure (data fig) (Some l).

Definition stats_cols : list string :=
  ["mean_pct_chg"; "median_pct_change"; "std"; "2std"].

(** [[c for c in total_pct_df.columns if c not in stats_cols]]. *)
Definition stock_cols (df : DataFrame) : list string :=
  filter (fun c => negb (mem c stats_cols)) (names df).

(** [df.iloc[-1]]: the last row, labelled by column. *)
Definition iloc_last (df : DataFrame) : result (list (string * num)) :=
  if (List.length (index df) =? 0)%nat then Raise IndexError
  else Ok (map (fun c => (fst c, last (snd c) nan)) (columns df)).

(** [last_vals[label]], the labels being pairwise distinct. *)
Definition loc (last_vals : list (string * num)) (label : string) : result num :=
  match find (fun c => String.eqb (fst c) label) last_vals with
  | Some c => Ok (snd c)
  | None => Raise (KeyError label)
  end.

(** The [if]/[elif] chain of lines 122-131. *)
Definition show_stock (filter_option : string) (last_vals : list (string * num))
  (col : string) : result bool :=
  (if String.eqb filter_option "Above mean (last value)" then
     v <- loc last_vals col ;; m <- loc last_vals "mean_pct_chg" ;; Ok (gtb v m)
   else if String.eqb filter_option "Above median (last value)" then
     v <- loc last_vals col ;; m <- loc last_vals "median_pct_change" ;; Ok (gtb v m)
   else if String.eqb filter_option "Above std (last value)" then
     v <- loc last_vals col ;; m <- loc last_vals "std" ;; Ok (gtb v m)
   else if String.eqb filter_option "Above 2 std (last value)" then
     v <- loc last_vals col ;; m <- loc last_vals "2std" ;; Ok (gtb v m)
   else Ok true)%result.

Definition stock_trace (df : DataFrame) (col : string) : result Scatter :=
  (ys <- getitem df col ;;
   Ok (mkScatter (index df) ys col (Some (6 # 10)%Q) None))%result.

(** The loop of lines 121-141. *)
Fixpoint plot_stocks (df : DataFrame) (filter_option : string)
  (last_vals : list (string * num)) (cols : list string) (fig : Figure)
  : result Figure :=
  match cols with
  | [] => Ok fig
  | col :: cols' =>
      (show <- show_stock filter_option last_vals col ;;
       fig' <- (if show : bool
                then t <- stock_trace df col ;; Ok (add_trace fig t)
                else Ok fig) ;;
       plot_stocks df filter_option last_vals cols' fig')%result
  end.

Definition reference_trace (df : DataFrame) (col label colour : string)
  : result Scatter :=
  (ys <- getitem df col ;;
   Ok (mkScatter (index df) ys label None (Some (mkLine "dot" 3 colour))))%result.

(** Lines 146-172. *)
Definition plot_reference_lines (df : DataFrame) (fig : Figure) : result Figure :=
  (t1 <- reference_trace df "mean_pct_chg" "Mean" "black" ;;
   let fig := add_trace fig t1 in
   t2 <- reference_trace df "median_pct_change" "Median" "blue" ;;
   let fig := add_trace fig t2 in
   t3 <- reference_trace df "std" "Std Dev" "red" ;;
   let fig := add_trace fig t3 in
   t4 <- reference_trace df "2std" "2 Std Dev" "purple" ;;
   Ok (add_trace fig t4))%result.

(** Lines 113-183. *)
Definition build_figure (df : DataFrame) (filter_option : string) : result Figure :=
  (last_vals <- iloc_last df ;;
   fig <- plot_stocks df filter_option last_vals (stock_cols df) new_figure ;;
   fig <- plot_reference_lines df fig ;;
   Ok (update_layout fig
         (mkLayout ("Stock Performance (" ++ filter_option ++ ")")
                   "Date" "Cumulative % Return" "plotly_white" 650)))%result.

(** *** The page *)

(** What the page shows, in order. *)
Inductive ui : Type :=
| st_group_table (g : list stock_row)
| st_warning (msg : string)
| st_dataframe (df : DataFrame)
| st_plotly_chart (fig : Figure).

(** How a run ends: the script ran to its end, [st.stop()] ended it, or an
    exception escaped. *)
Inductive ending : Type :=
| Finished
| Stopped
| Crashed (e : exn).

(** [df.tail(n)]. *)
Definition tail_list {A : Type} (n : nat) (l : list A) : list A :=
  skipn (List.length l - n) l.

Definition tail (n : nat) (df : DataFrame) : DataFrame :=
  mkDataFrame (tail_list n (index df))
              (map (fun c => (fst c, tail_list n (snd c))) (columns df)).

(** Lines 69-185, from the downloaded prices on. [show_table] is the check
    box, [filter_option] the radio button. *)
Definition dashboard (fm : fill_method) (price_df : DataFrame)
  (show_table : bool) (filter_option : string) : list ui * ending :=
  if empty price_df then
    ([st_warning "No price data available for selected date range."], Stopped)
  else
    match annotate (total_pct_df fm price_df) with
    | Raise e => ([], Crashed e)
    | Ok total =>
        let table := if show_table then [st_dataframe (tail 50 total)] else [] in
        match build_figure total filter_option with
        | Raise e => (table, Crashed e)
        | Ok fig => ((table ++ [st_plotly_chart fig])%list, Finished)
        end
    end.

(** The script from line 31 on, for a ticker file with at least one row:
    [csv] is the ticker file, [group_no] the value of the select box, a
    number from 1 to [total_groups], [download] the price source for the
    chosen dates. *)
Definition script (fm : fill_method) (csv : list stock_row) (group_no : nat)
  (download : list string -> DataFrame) (show_table : bool)
  (filter_option : string) : list ui * ending :=
  let g := df_group (stock_mcap_df csv) group_no in
  match symbols g with
  | Raise e => ([st_group_table g], Crashed e)
  | Ok syms =>
      let (shown, e) := dashboard fm (download syms) show_table filter_option in
      (st_group_table g :: shown, e)
  end.

End Pandas.

Arguments DataFrame num : clear implicits.
Arguments Series num : clear implicits.
Arguments stock_row num : clear implicits.
Arguments cell num : clear implicits.
Arguments Scatter num : clear implicits.
Arguments Figure num : clear implicits.
Arguments ui num : clear implicits.

(** ** Vocabulary of the statements *)

Section Vocabulary.
Context {num : Type} {N : Number num} {S : Sqrt num}.

(** No ticker column carries the label of a statistic column. *)
Definition tickers_only (df : DataFrame num) : bool :=
  forallb (fun n => negb (mem n stats_cols)) (names df).

(** The ticker columns of a frame, as line 114 selects them. *)
Definition ticker_frame (df : DataFrame num) : DataFrame num :=
  mkDataFrame (index df)
    (filter (fun c => negb (mem (fst c) stats_cols)) (columns df)).

(** The column and the last value under a label, for labels that exist. *)
Definition column (df : DataFrame num) (label : string) : Series num :=
  match getitem df label with
  | Ok s => s
  | Raise _ => []
  end.

Definition last_value (df : DataFrame num) (label : string) : num :=
  last (column df label) nan.

(** The annotated frame in closed form: the ticker columns, then the four
    statistics, each computed over the ticker columns alone. *)
Definition annotated (cum : DataFrame num) : DataFrame num :=
  mkDataFrame (index cum)
    (columns cum ++
     [("mean_pct_chg", mean_axis1 cum);
      ("median_pct_change", median_axis1 cum);
      ("std", std_axis1 cum);
      ("2std", map (mul (of_Z 2)) (std_axis1 cum))]).

(** One daily return and its [fillna(0)]. *)
Definition pct (a b : num) : num := sub (div a b) (of_Z 1).
Definition fill0 (r : num) : num := if is_nan r then of_Z 0 else r.



(** [f] applied to each cell and the cell above it. *)
Fixpoint adjacent (f : num -> num -> num) (prev : num) (s : Series num) : Series num :=
  match s with
  | [] => []
  | b :: s' => f b prev :: adjacent f b s'
  end.

(** The trace of a ticker column and the four reference lines, as the
    script builds them when every label exists. *)
Definition stock_scatter (df : DataFrame num) (col : string) : Scatter num :=
  mkScatter (index df) (column df col) col (Some (6 # 10)%Q) None.

Definition reference_lines (df : DataFrame num) : list (Scatter num) :=
  [mkScatter (index df) (column df "mean_pct_chg") "Mean" None
             (Some (mkLine "dot" 3 "black"));
   mkScatter (index df) (column df "median_pct_change") "Median" None
             (Some (mkLine "dot" 3 "blue"));
   mkScatter (index df) (column df "std") "Std Dev" None
             (Some (mkLine "dot" 3 "red"));
   mkScatter (index df) (column df "2std") "2 Std Dev" None
             (Some (mkLine "dot" 3 "purple"))].

(** The outcome of the [if]/[elif] chain on the last values of a frame. *)
Definition above (df : DataFrame num) (filter_option col : string) : bool :=
  if String.eqb filter_option "Above mean (last value)" then
    gtb (last_value df col) (last_value df "mean_pct_chg")
  else if String.eqb filter_option "Above median (last value)" then
    gtb (last_value df col) (last_value df "median_pct_change")
  else if String.eqb filter_option "Above std (last value)" then
    gtb (last_value df col) (last_value df "std")
  else if String.eqb filter_option "Above 2 std (last value)" then
    gtb (last_value df col) (last_value df "2std")
  else true.

(** The names of the ticker traces of a figure: the traces drawn without
    a dashed line. *)
Definition shown_stocks (fig : Figure num) : list string :=
  map (@name num)
      (filter (fun t => match line t with None => true | Some _ => false end)
              (data fig)).

Definition last_row (df : DataFrame num) : list (string * num) :=
  map (fun c => (fst c, last (snd c) nan)) (columns df).

Definition chart_layout (filter_option : string) : Layout :=
  mkLayout ("Stock Performance (" ++ filter_option ++ ")")
           "Date" "Cumulative % Return" "plotly_white" 650.


Section Order.
Context {A : Type} (key : A -> num).

(** [a] may stand before [b] in ascending order: [b] is not below [a]. *)
Definition ascending (a b : A) : Prop := ltb (key b) (key a) = false.
Definition descending (a b : A) : Prop := ltb (key a) (key b) = false.

End Order.

End Vocabulary.

(** The five choices of the radio button, their labels, and the statistic
    each compares with. *)
Inductive FilterSelection : Type :=
| AllStocks
| AboveMean
| AboveMedian
| AboveStd
| Above2Std.

Definition radio_label (mode : FilterSelection) : string :=
  match mode with
  | AllStocks => "All stocks"
  | AboveMean => "Above mean (last value)"
  | AboveMedian => "Above median (last value)"
  | AboveStd => "Above std (last value)"
  | Above2Std => "Above 2 std (last value)"
  end.

Definition statistic (mode : FilterSelection) : option string :=
  match mode with
  | AllStocks => None
  | AboveMean => Some "mean_pct_chg"
  | AboveMedian => Some "median_pct_change"
  | AboveStd => Some "std"
  | Above2Std => Some "2std"
  end.



(** The order of [SFcompare] on values that are not NaN is the
    lexicographic order of a rank: sign class, then exponent, then mantissa. *)
Definition SFrank (s : spec_float) : Z * Z * Z :=
  match s with
  | S754_nan => (0, 0, 0)
  | S754_zero _ => (0, 0, 0)
  | S754_infinity true => (-2, 0, 0)
  | S754_infinity false => (2, 0, 0)
  | S754_finite true m e => (-1, - e, - Zpos m)
  | S754_finite false m e => (1, e, Zpos m)
  end%Z.

Definition lexlt (a b : Z * Z * Z) : Prop :=
  let '(a1, a2, a3) := a in
  let '(b1, b2, b3) := b in
  (a1 < b1 \/ (a1 = b1 /\ (a2 < b2 \/ (a2 = b2 /\ a3 < b3))))%Z.

(** ** Laws of binary64 *)

Lemma SFcompare_refl (s : spec_float) :
  s <> S754_nan -> SFcompare s s = Some Eq.
Proof.
  destruct s as [b | b | | b m e]; simpl; intros Hs; try congruence.
  - now destruct b.
  - rewrite Z.compare_refl, Pos.compare_cont_refl. now destruct b.
Qed.

Lemma Prim2SF_nan (x : float) : Prim2SF x = S754_nan -> x = PrimFloat.nan.
Proof.
  intros Hx. apply Prim2SF_inj. now rewrite Hx.
Qed.

Lemma float_is_nan_spec (x : float) :
  PrimFloat.is_nan x = true <-> Prim2SF x = S754_nan.
Proof.
  unfold PrimFloat.is_nan. rewrite FloatAxioms.eqb_spec. unfold SFeqb. split.
  - intros Hx. destruct (Prim2SF x) eqn:E; try reflexivity;
      rewrite SFcompare_refl in Hx by discriminate; discriminate.
  - intros ->. reflexivity.
Qed.

Lemma float_is_nan_eq (x : float) : PrimFloat.is_nan x = true -> x = PrimFloat.nan.
Proof.
  intros Hx. now apply Prim2SF_nan, float_is_nan_spec.
Qed.

(** Every binary operation whose specification maps a NaN operand to NaN. *)
Ltac float_nan_op spec :=
  intros; apply Prim2SF_nan; rewrite spec;
  change (Prim2SF PrimFloat.nan) with S754_nan;
  match goal with
  | |- context [Prim2SF ?x] => destruct (Prim2SF x); reflexivity
  end.

Lemma float_div_nan_l x : (PrimFloat.nan / x)%float = PrimFloat.nan.
Proof. float_nan_op div_spec. Qed.

Lemma float_div_nan_r x : (x / PrimFloat.nan)%float = PrimFloat.nan.
Proof. float_nan_op div_spec. Qed.

Lemma float_sub_nan_l x : (PrimFloat.nan - x)%float = PrimFloat.nan.
Proof. float_nan_op sub_spec. Qed.

Lemma float_ltb_nan_l x : (PrimFloat.nan <? x)%float = false.
Proof. rewrite FloatAxioms.ltb_spec. reflexivity. Qed.

Lemma float_ltb_nan_r x : (x <? PrimFloat.nan)%float = false.
Proof.
  rewrite FloatAxioms.ltb_spec. change (Prim2SF PrimFloat.nan) with S754_nan.
  unfold SFltb. now destruct (Prim2SF x).
Qed.

#[export] Instance float64_nan_laws : NanLaws float64.
Proof.
  constructor; simpl.
  - reflexivity.
  - exact float_is_nan_eq.
  - exact float_div_nan_l.
  - exact float_div_nan_r.
  - exact float_sub_nan_l.
  - reflexivity.
  - reflexivity.
  - reflexivity.
  - reflexivity.
  - reflexivity.
Qed.

Lemma SFltb_rank (x y : spec_float) :
  x <> S754_nan -> y <> S754_nan ->
  (SFltb x y = true <-> lexlt (SFrank x) (SFrank y)).
Proof.
  intros Hx Hy.
  destruct x as [[] | [] | | [] m1 e1]; try congruence;
  destruct y as [[] | [] | | [] m2 e2]; try congruence;
  unfold SFltb, lexlt; simpl;
  try (split; [discriminate | lia]);
  try (split; [lia | reflexivity]);
  change (Pos.compare_cont Eq m1 m2) with (m1 ?= m2)%positive;
  destruct (Z.compare_spec e1 e2); destruct (Pos.compare_spec m1 m2);
  simpl; split; intros; try discriminate; try reflexivity; try lia.
Qed.

Lemma float_ltb_rank (x y : float) :
  PrimFloat.is_nan x = false -> PrimFloat.is_nan y = false ->
  ((x <? y)%float = true <-> lexlt (SFrank (Prim2SF x)) (SFrank (Prim2SF y))).
Proof.
  intros Hx Hy. rewrite FloatAxioms.ltb_spec. apply SFltb_rank.
  - intros E. apply float_is_nan_spec in E. congruence.
  - intros E. apply float_is_nan_spec in E. congruence.
Qed.

Lemma float_ltb_not_nan (x y : float) :
  (x <? y)%float = true -> PrimFloat.is_nan x = false /\ PrimFloat.is_nan y = false.
Proof.
  intros H. split.
  - destruct (PrimFloat.is_nan x) eqn:E; [|reflexivity].
    apply float_is_nan_eq in E. subst. now rewrite float_ltb_nan_l in H.
  - destruct (PrimFloat.is_nan y) eqn:E; [|reflexivity].
    apply float_is_nan_eq in E. subst. now rewrite float_ltb_nan_r in H.
Qed.

Lemma float_ltb_irrefl (x : float) : (x <? x)%float = false.
Proof.
  destruct (x <? x)%float eqn:E; [|reflexivity].
  destruct (float_ltb_not_nan _ _ E) as [Hx _].
  apply float_ltb_rank in E; trivial.
  unfold lexlt in E. destruct (SFrank (Prim2SF x)) as [[a b] c]. lia.
Qed.

Lemma float_ltb_asym (x y : float) :
  (x <? y)%float = true -> (y <? x)%float = false.
Proof.
  intros H. destruct (float_ltb_not_nan _ _ H) as [Hx Hy].
  destruct (y <? x)%float eqn:E; [|reflexivity].
  apply float_ltb_rank in H; trivial. apply float_ltb_rank in E; trivial.
  unfold lexlt in *.
  destruct (SFrank (Prim2SF x)) as [[a b] c], (SFrank (Prim2SF y)) as [[a' b'] c']. lia.
Qed.

Lemma float_ltb_negtrans (x y z : float) :
  PrimFloat.is_nan y = false ->
  (y <? x)%float = false -> (z <? y)%float = false -> (z <? x)%float = false.
Proof.
  intros Hy Hyx Hzy. destruct (z <? x)%float eqn:E; [|reflexivity].
  destruct (float_ltb_not_nan _ _ E) as [Hz Hx].
  apply float_ltb_rank in E; trivial.
  assert (Hyx' : ~ lexlt (SFrank (Prim2SF y)) (SFrank (Prim2SF x))).
  { intros C. apply float_ltb_rank in C; trivial. congruence. }
  assert (Hzy' : ~ lexlt (SFrank (Prim2SF z)) (SFrank (Prim2SF y))).
  { intros C. apply float_ltb_rank in C; trivial. congruence. }
  unfold lexlt in *.
  destruct (SFrank (Prim2SF x)) as [[a b] c], (SFrank (Prim2SF y)) as [[a' b'] c'],
    (SFrank (Prim2SF z)) as [[a'' b''] c'']. lia.
Qed.

#[export] Instance float64_order_laws : OrderLaws float64.
Proof.
  constructor; simpl.
  - exact float_ltb_irrefl.
  - exact float_ltb_asym.
  - exact float_ltb_negtrans.
Qed.

(** Rounding keeps the sign it is given, so a square root is never below
    zero: it is NaN, a zero, a positive number or +infinity. *)
Lemma binary_round_aux_sign (p e : Z) (sx : bool) (mx ex : Z) (lx : location) :
  match binary_round_aux p e sx mx ex lx with
  | S754_nan => True
  | S754_zero s | S754_infinity s | S754_finite s _ _ => s = sx
  end.
Proof.
  unfold binary_round_aux.
  destruct (shr_fexp p e mx ex lx) as [mrs' e'].
  destruct (shr_fexp p e _ e' loc_Exact) as [mrs'' e''].
  destruct (shr_m mrs''); trivial.
  now destruct (e'' <=? e - p)%Z.
Qed.

Lemma SFsqrt_nonneg (p e : Z) (x : spec_float) :
  SFsqrt p e x = S754_nan \/ SFleb (S754_zero false) (SFsqrt p e x) = true.
Proof.
  destruct x as [s | [] | | [] m ex]; simpl; auto.
  destruct (SFsqrt_core_binary p e (Z.pos m) ex) as [[mz ez] lz].
  pose proof (binary_round_aux_sign p e false mz ez lz) as H.
  destruct (binary_round_aux p e false mz ez lz); subst; auto.
Qed.

Lemma float_sqrt_nonneg (x : float) :
  PrimFloat.is_nan (PrimFloat.sqrt x) = true \/
  (0 <=? PrimFloat.sqrt x)%float = true.
Proof.
  rewrite float_is_nan_spec, FloatAxioms.leb_spec, sqrt_spec.
  apply SFsqrt_nonneg.
Qed.

#[export] Instance float64_sqrt_laws : SqrtLaws float64 float64_sqrt.
Proof.
  constructor; simpl.
  - reflexivity.
  - exact float_sqrt_nonneg.
Qed.

(** ** binary64: operations that do not round *)



(** A finite number divided by itself: the quotient of the mantissas is a
    power of two with no remainder, whatever the mantissa. *)
Lemma SFdiv_core_self (m : positive) (e : Z) :
  SFdiv_core_binary prec emax (Zpos m) e (Zpos m) e = (2 ^ 53, -53, loc_Exact)%Z.
Proof.
  unfold SFdiv_core_binary. cbv zeta.
  rewrite !Z.sub_diag.
  change (Z.min (fexp prec emax 0) 0) with (-53)%Z.
  change (0 - -53)%Z with 53%Z.
  cbv iota beta.
  assert (E : Z.div_eucl (Z.shiftl (Zpos m) 53) (Zpos m) = (2 ^ 53, 0)%Z).
  { rewrite Z.shiftl_mul_pow2 by lia.
    pose proof (Z.div_mul (2 ^ 53) (Zpos m)) as Hd.
    pose proof (Z.mod_mul (2 ^ 53) (Zpos m)) as Hm.
    unfold Z.div, Z.modulo in Hd, Hm.
    rewrite (Z.mul_comm (Zpos m)).
    destruct (Z.div_eucl (2 ^ 53 * Zpos m) (Zpos m)) as [q r].
    simpl in Hd, Hm. rewrite Hd, Hm by lia. reflexivity. }
  rewrite E. unfold new_location.
  destruct (Z.even (Zpos m)); reflexivity.
Qed.

Lemma float_div_self (x : float) (s : bool) (m : positive) (e : Z) :
  Prim2SF x = S754_finite s m e -> (x / x)%float = 1%float.
Proof.
  intros H. apply Prim2SF_inj. rewrite div_spec, H.
  unfold SF64div, SFdiv. rewrite SFdiv_core_self, xorb_nilpotent.
  reflexivity.
Qed.

(** A price over itself, less 1, after [fillna(0)]: 0 for a finite nonzero
    price; NaN, hence 0 again, for a zero, an infinity or NaN. *)
Lemma float_pct_self (v : float) : fill0 (pct v v) = of_Z 0.
Proof.
  unfold pct. change (div v v) with (v / v)%float.
  destruct (Prim2SF v) as [s | s | | s m e] eqn:E.
  1-3: assert (H : (v / v)%float = PrimFloat.nan)
         by (apply Prim2SF_nan; rewrite div_spec, E; reflexivity);
       rewrite H; reflexivity.
  rewrite (float_div_self v s m e E). reflexivity.
Qed.

(** Multiplying by 1 shifts the mantissa up by 52 bits and rounds it back
    down by as many: nothing is lost. *)
Lemma shr_fexp_times_one (m : positive) (e : Z) :
  fexp prec emax (Z.pos (digits2_pos m) + e) = e ->
  shr_fexp prec emax (Z.pos (4503599627370496 * m)) (e + -52) loc_Exact =
  ({| shr_m := Z.pos m; shr_r := false; shr_s := false |}, e).
Proof.
  intros C. unfold shr_fexp.
  cbn [Pos.mul Zdigits2 digits2_pos].
  match goal with
  | |- context [fexp prec emax (Z.pos ?d + (e + -52))] =>
      replace (Z.pos d + (e + -52))%Z with (Z.pos (digits2_pos m) + e)%Z by lia
  end.
  rewrite C.
  replace (e - (e + -52))%Z with 52%Z by lia.
  cbv [shr shr_record_of_loc SpecFloat.iter_pos shr_1 shr_m shr_r shr_s orb].
  f_equal. lia.
Qed.

Lemma SFmul_one_finite (s : bool) (m : positive) (e : Z) :
  valid_binary (S754_finite s m e) = true ->
  SFmul prec emax (S754_finite s m e) (Prim2SF 1) = S754_finite s m e.
Proof.
  intros V.
  change (Prim2SF 1) with (S754_finite false 4503599627370496 (-52)).
  unfold SFmul. rewrite xorb_false_r.
  unfold valid_binary, bounded, canonical_mantissa in V.
  apply andb_prop in V. destruct V as [C B].
  apply Z.eqb_eq in C.
  rewrite Pos.mul_comm.
  unfold binary_round_aux.
  rewrite (shr_fexp_times_one m e C).
  cbn [shr_m loc_of_shr_record shr_r shr_s round_nearest_even].
  unfold shr_fexp. cbn [Zdigits2]. rewrite C, Z.sub_diag.
  cbn [shr shr_record_of_loc shr_m]. rewrite B. reflexivity.
Qed.

Lemma float_mul_one_r (x : float) : (x * 1)%float = x.
Proof.
  apply Prim2SF_inj. rewrite mul_spec. unfold SF64mul.
  pose proof (Prim2SF_valid x) as V.
  destruct (Prim2SF x) as [s | s | | s m e] eqn:E.
  - cbn. now rewrite xorb_false_r.
  - cbn. now rewrite xorb_false_r.
  - reflexivity.
  - now apply SFmul_one_finite.
Qed.

(** ** binary64: rounding never makes a NaN *)

Lemma iter_pos_invariant {A : Type} (P : A -> Prop) (f : A -> A) :
  (forall a, P a -> P (f a)) -> forall n a, P a -> P (SpecFloat.iter_pos f n a).
Proof.
  intros Hf. induction n as [n IH | n IH |]; intros a Ha; simpl; auto.
Qed.

Lemma shr_1_nonneg (mrs : shr_record) :
  (0 <= shr_m mrs)%Z -> (0 <= shr_m (shr_1 mrs))%Z.
Proof.
  destruct mrs as [m r s]. simpl.
  destruct m as [| [p | p |] | p]; simpl; intros H; lia.
Qed.

Lemma shr_fexp_nonneg (p e m ex : Z) (l : location) :
  (0 <= m)%Z -> (0 <= shr_m (fst (shr_fexp p e m ex l)))%Z.
Proof.
  intros Hm. unfold shr_fexp, shr.
  assert (H0 : (0 <= shr_m (shr_record_of_loc m l))%Z).
  { unfold shr_record_of_loc. destruct l as [| []]; exact Hm. }
  destruct (fexp p e (Zdigits2 m + ex) - ex)%Z as [| n | n]; cbn [fst]; trivial.
  apply (iter_pos_invariant (fun mrs => (0 <= shr_m mrs)%Z)); trivial.
  exact shr_1_nonneg.
Qed.

Lemma round_nearest_even_nonneg (m : Z) (l : location) :
  (0 <= m)%Z -> (0 <= round_nearest_even m l)%Z.
Proof.
  intros Hm. unfold round_nearest_even.
  destruct l as [| []]; try destruct (Z.even m); lia.
Qed.

Lemma binary_round_aux_not_nan (p e : Z) (sx : bool) (mx ex : Z) (lx : location) :
  (0 <= mx)%Z -> binary_round_aux p e sx mx ex lx <> S754_nan.
Proof.
  intros Hm. unfold binary_round_aux.
  pose proof (shr_fexp_nonneg p e mx ex lx Hm) as H1.
  destruct (shr_fexp p e mx ex lx) as [mrs' e']. cbn [fst] in H1.
  pose proof (shr_fexp_nonneg p e _ e' loc_Exact
                (round_nearest_even_nonneg _ (loc_of_shr_record mrs') H1)) as H2.
  destruct (shr_fexp p e _ e' loc_Exact) as [mrs'' e'']. cbn [fst] in H2.
  destruct (shr_m mrs''); try discriminate; [| lia].
  now destruct (e'' <=? e - p)%Z.
Qed.

Lemma binary_normalize_not_nan (p e m ex : Z) (sz : bool) :
  binary_normalize p e m ex sz <> S754_nan.
Proof.
  unfold binary_normalize, binary_round.
  destruct m as [| m | m]; try discriminate;
    destruct (shl_align m ex _) as [mz ez];
    apply binary_round_aux_not_nan; lia.
Qed.

Lemma SFadd_finite_not_nan (p e : Z) (s : bool) (m : positive) (ex : Z)
  (y : spec_float) :
  y <> S754_nan -> SFadd p e (S754_finite s m ex) y <> S754_nan.
Proof.
  intros Hy. destruct y as [sy | sy | | sy my ey]; simpl; try discriminate;
    try congruence.
  apply binary_normalize_not_nan.
Qed.

(** 1 plus a return that is not NaN is not NaN. *)
Lemma float_one_plus_not_nan (x : float) :
  PrimFloat.is_nan x = false -> PrimFloat.is_nan (1 + x)%float = false.
Proof.
  intros Hx. destruct (PrimFloat.is_nan (1 + x)%float) eqn:E; trivial.
  apply float_is_nan_spec in E. rewrite add_spec in E.
  change (Prim2SF 1) with (S754_finite false 4503599627370496 (-52)) in E.
  exfalso. revert E. apply SFadd_finite_not_nan.
  intros H. apply float_is_nan_spec in H. congruence.
Qed.

(** ** Facts about frames *)

Section FrameFacts.
Context {num : Type} {N : Number num} {S : Sqrt num}.

Lemma mem_In (s : string) (l : list string) : mem s l = true <-> In s l.
Proof.
  unfold mem. rewrite existsb_exists. split.
  - intros [x [Hx E]]. apply String.eqb_eq in E. now subst.
  - intros H. exists s. split; trivial. apply String.eqb_refl.
Qed.

Lemma mem_false (s : string) (l : list string) : mem s l = false <-> ~ In s l.
Proof.
  rewrite <- mem_In. destruct (mem s l); split; intros; congruence.
Qed.

Lemma frame_eta (df : DataFrame num) : mkDataFrame (index df) (columns df) = df.
Proof. now destruct df. Qed.

Lemma names_map_frame (f : Series num -> Series num) (df : DataFrame num) :
  names (map_frame f df) = names df.
Proof.
  unfold names, map_frame. simpl. rewrite map_map. reflexivity.
Qed.

Lemma find_col_app (label : string) (cs extra : list (string * Series num)) :
  ~ In label (map fst cs) ->
  find (fun c => String.eqb (fst c) label) (cs ++ extra)
  = find (fun c => String.eqb (fst c) label) extra.
Proof.
  induction cs as [| c cs IH]; simpl; intros H; trivial.
  destruct (String.eqb_spec (fst c) label) as [E | E].
  - exfalso. apply H. now left.
  - apply IH. intros C. apply H. now right.
Qed.

Lemma find_col_app_l (label : string) (cs extra : list (string * Series num)) :
  In label (map fst cs) ->
  find (fun c => String.eqb (fst c) label) (cs ++ extra)
  = find (fun c => String.eqb (fst c) label) cs.
Proof.
  induction cs as [| c cs IH]; simpl; intros H; [contradiction |].
  destruct (String.eqb_spec (fst c) label) as [E | E]; trivial.
  apply IH. destruct H; congruence.
Qed.

Lemma filter_keep_tickers (labels : list string) (cs extra : list (string * Series num)) :
  (forall n, In n (map fst cs) -> ~ In n labels) ->
  filter (fun c => negb (mem (fst c) labels)) (cs ++ extra)
  = (cs ++ filter (fun c => negb (mem (fst c) labels)) extra)%list.
Proof.
  intros H. rewrite filter_app. f_equal.
  induction cs as [| c cs IH]; simpl; trivial.
  assert (E : mem (fst c) labels = false).
  { apply mem_false. apply H. now left. }
  rewrite E. simpl. f_equal. apply IH. intros n Hn. apply H. now right.
Qed.

Lemma tickers_only_spec (df : DataFrame num) :
  tickers_only df = true <-> (forall n, In n (names df) -> ~ In n stats_cols).
Proof.
  unfold tickers_only. rewrite forallb_forall. split; intros H n Hn.
  - apply mem_false. specialize (H n Hn). now destruct (mem n stats_cols).
  - apply H in Hn. apply mem_false in Hn. now rewrite Hn.
Qed.

Lemma setitem_new (df : DataFrame num) (label : string) (s : Series num) :
  ~ In label (names df) ->
  setitem df label s = mkDataFrame (index df) (columns df ++ [(label, s)]).
Proof.
  intros H. unfold setitem. apply mem_false in H. now rewrite H.
Qed.

Lemma setitem_appended (df : DataFrame num) (extra : list (string * Series num))
  (label : string) (s : Series num) :
  ~ In label (names df) -> ~ In label (map fst extra) ->
  setitem (mkDataFrame (index df) (columns df ++ extra)) label s
  = mkDataFrame (index df) (columns df ++ (extra ++ [(label, s)])).
Proof.
  intros H1 H2. rewrite setitem_new.
  - simpl. now rewrite <- app_assoc.
  - unfold names. simpl. rewrite map_app, in_app_iff. tauto.
Qed.

Lemma drop_appended (df : DataFrame num) (labels : list string)
  (extra : list (string * Series num)) :
  (forall n, In n (names df) -> ~ In n labels) ->
  map fst extra = labels ->
  drop labels (mkDataFrame (index df) (columns df ++ extra)) = Ok df.
Proof.
  intros H1 H2. unfold drop.
  destruct (find _ labels) as [l |] eqn:F.
  - apply find_some in F as [Hl Hm]. exfalso.
    apply negb_true_iff, mem_false in Hm. apply Hm.
    unfold names. simpl. rewrite map_app, in_app_iff. right. now rewrite H2.
  - simpl. rewrite filter_keep_tickers by exact H1.
    replace (filter _ extra) with (@nil (string * Series num)).
    + now rewrite app_nil_r, frame_eta.
    + symmetry. subst labels. clear H1 F.
      assert (G : forall c, In c extra -> mem (fst c) (map fst extra) = true).
      { intros c Hc. apply mem_In. now apply in_map. }
      revert G. generalize (map fst extra) as ls.
      induction extra as [| c extra IH]; simpl; intros ls G; trivial.
      rewrite G by now left. simpl. apply IH. intros c' Hc'. apply G. now right.
Qed.

Lemma getitem_appended (df : DataFrame num) (extra : list (string * Series num))
  (label : string) :
  ~ In label (names df) ->
  getitem (mkDataFrame (index df) (columns df ++ extra)) label
  = getitem (mkDataFrame (index df) extra) label.
Proof.
  intros H. unfold getitem. simpl. now rewrite find_col_app.
Qed.

Lemma getitem_ticker (df : DataFrame num) (extra : list (string * Series num))
  (label : string) :
  In label (names df) ->
  getitem (mkDataFrame (index df) (columns df ++ extra)) label = getitem df label.
Proof.
  intros H. unfold getitem. simpl. now rewrite find_col_app_l.
Qed.

Lemma annotate_tickers_only (cum : DataFrame num) :
  tickers_only cum = true -> annotate cum = Ok (annotated cum).
Proof.
  intros T. rewrite tickers_only_spec in T.
  assert (T0 : forall l, In l stats_cols -> ~ In l (names cum)).
  { intros l Hl C. now apply (T l C). }
  assert (T' : forall labels, incl labels stats_cols ->
            forall n, In n (names cum) -> ~ In n labels).
  { intros labels Hl n Hn C. apply (T n Hn). now apply Hl. }
  unfold annotate.
  rewrite (setitem_new cum "mean_pct_chg") by (apply T0; simpl; auto).
  rewrite drop_appended; [| apply T'; intros l [<- | []]; simpl; auto | reflexivity].
  cbn [result_bind].
  rewrite setitem_appended;
    [| apply T0; simpl; auto | simpl; intros [C | []]; discriminate].
  rewrite drop_appended;
    [| apply T'; intros l [<- | [<- | []]]; simpl; auto | reflexivity].
  cbn [result_bind].
  rewrite setitem_appended;
    [| apply T0; simpl; auto | simpl; intros [C | [C | []]]; discriminate].
  rewrite getitem_appended by (apply T0; simpl; auto).
  cbn [app]. unfold getitem at 1. cbn [columns find fst snd String.eqb Ascii.eqb Bool.eqb].
  cbn [result_bind].
  rewrite setitem_appended;
    [| apply T0; simpl; auto | simpl; intros [C | [C | [C | []]]]; discriminate].
  reflexivity.
Qed.

(** Without any assumption on the labels: assignment and lookup. *)
Lemma names_replace_col (label : string) (s : Series num) (cs : list (string * Series num)) :
  map fst (replace_col label s cs) = map fst cs.
Proof.
  induction cs as [| c cs IH]; simpl; trivial.
  destruct (String.eqb_spec (fst c) label) as [E | E]; simpl; rewrite IH;
    congruence.
Qed.

Lemma find_replace_col_same (label : string) (s : Series num) (cs : list (string * Series num)) :
  In label (map fst cs) ->
  find (fun c => String.eqb (fst c) label) (replace_col label s cs) = Some (label, s).
Proof.
  induction cs as [| c cs IH]; simpl; intros H; [contradiction |].
  destruct (String.eqb_spec (fst c) label) as [E | E]; simpl.
  - now rewrite String.eqb_refl.
  - destruct (String.eqb_spec (fst c) label); [congruence |].
    apply IH. destruct H; congruence.
Qed.

Lemma find_replace_col_other (label other : string) (s : Series num)
  (cs : list (string * Series num)) :
  label <> other ->
  find (fun c => String.eqb (fst c) other) (replace_col label s cs)
  = find (fun c => String.eqb (fst c) other) cs.
Proof.
  intros D. induction cs as [| c cs IH]; simpl; trivial.
  destruct (String.eqb_spec (fst c) label) as [E | E]; simpl.
  - destruct (String.eqb_spec label other); [congruence |].
    destruct (String.eqb_spec (fst c) other); [congruence | exact IH].
  - destruct (String.eqb_spec (fst c) other); trivial.
Qed.

Lemma names_setitem (df : DataFrame num) (label : string) (s : Series num) :
  names (setitem df label s)
  = if mem label (names df) then names df else (names df ++ [label])%list.
Proof.
  unfold setitem. destruct (mem label (names df)); unfold names; simpl.
  - apply names_replace_col.
  - now rewrite map_app.
Qed.

Lemma In_names_setitem (df : DataFrame num) (label n : string) (s : Series num) :
  In n (names (setitem df label s)) <-> In n (names df) \/ n = label.
Proof.
  rewrite names_setitem. destruct (mem label (names df)) eqn:E.
  - apply mem_In in E. split; [tauto | intros [H | ->]; trivial].
  - rewrite in_app_iff. simpl. split; [intros [H | [H | []]] | intros [H | H]]; auto.
Qed.

Lemma getitem_setitem_same (df : DataFrame num) (label : string) (s : Series num) :
  getitem (setitem df label s) label = Ok s.
Proof.
  unfold getitem, setitem. destruct (mem label (names df)) eqn:E; simpl.
  - apply mem_In in E. now rewrite find_replace_col_same.
  - apply mem_false in E. rewrite find_col_app by exact E.
    simpl. now rewrite String.eqb_refl.
Qed.

Lemma getitem_setitem_other (df : DataFrame num) (label other : string) (s : Series num) :
  label <> other -> getitem (setitem df label s) other = getitem df other.
Proof.
  intros D. unfold getitem, setitem. destruct (mem label (names df)) eqn:E; simpl.
  - now rewrite find_replace_col_other.
  - destruct (find (fun c => String.eqb (fst c) other) (columns df)) as [c |] eqn:F.
    + rewrite find_col_app_l; [now rewrite F |].
      apply find_some in F as [Hc Hn]. apply String.eqb_eq in Hn. subst other.
      now apply in_map.
    + rewrite find_col_app.
      * simpl. destruct (String.eqb_spec label other); [congruence | reflexivity].
      * intros C. apply in_map_iff in C as [c [Hc1 Hc2]].
        apply (find_none _ _ F) in Hc2. rewrite Hc1, String.eqb_refl in Hc2. discriminate.
Qed.

Lemma drop_present (df : DataFrame num) (labels : list string) :
  (forall l, In l labels -> In l (names df)) ->
  exists d, drop labels df = Ok d.
Proof.
  intros H. unfold drop. destruct (find _ labels) as [l |] eqn:F.
  - apply find_some in F as [Hl Hm]. apply negb_true_iff, mem_false in Hm.
    exfalso. now apply Hm, H.
  - eexists. reflexivity.
Qed.

(** [annotate] never raises, and its last two columns are [std] and the
    doubling of that very column. *)
Lemma annotate_std_2std (cum : DataFrame num) :
  exists ann std,
    annotate cum = Ok ann /\
    getitem ann "std" = Ok std /\
    getitem ann "2std" = Ok (map (mul (of_Z 2)) std).
Proof.
  unfold annotate.
  set (df1 := setitem cum "mean_pct_chg" (mean_axis1 cum)).
  destruct (drop_present df1 ["mean_pct_chg"]) as [d1 ->].
  { intros l [<- | []]. apply In_names_setitem. now right. }
  cbn [result_bind].
  set (df2 := setitem df1 "median_pct_change" (median_axis1 d1)).
  destruct (drop_present df2 ["mean_pct_chg"; "median_pct_change"]) as [d2 ->].
  { intros l [<- | [<- | []]]; apply In_names_setitem.
    - left. apply In_names_setitem. now right.
    - now right. }
  cbn [result_bind].
  rewrite getitem_setitem_same. cbn [result_bind].
  eexists. exists (std_axis1 d2). split; [reflexivity | split].
  - rewrite getitem_setitem_other by discriminate. apply getitem_setitem_same.
  - apply getitem_setitem_same.
Qed.

End FrameFacts.

(** ** Facts about returns *)

Section ReturnsFacts.
Context {num : Type} {N : Number num} {L : NanLaws N}.

Lemma zip_removelast (f : num -> num -> num) (a : num) (s : Series num) :
  zip_with f s (removelast (a :: s)) = adjacent f a s.
Proof.
  revert a. induction s as [| b s IH]; intros a; trivial.
  change (removelast (a :: b :: s)) with (a :: removelast (b :: s)).
  specialize (IH b). unfold zip_with in *.
  cbn [combine map fst snd adjacent]. now rewrite IH.
Qed.

Lemma zip_shift (f : num -> num -> num) (a : num) (s : Series num) :
  zip_with f (a :: s) (shift (a :: s)) = f a nan :: adjacent f a s.
Proof.
  unfold shift. rewrite <- zip_removelast. reflexivity.
Qed.

Lemma nth_adjacent (f : num -> num -> num) (a : num) (s : Series num) (t : nat) (d : num) :
  t < List.length s ->
  nth t (adjacent f a s) d = f (nth t s d) (nth t (a :: s) d).
Proof.
  revert a t. induction s as [| b s IH]; intros a t Ht; simpl in Ht; [lia |].
  destruct t as [| t]; trivial.
  simpl adjacent. change (nth (S t) (f b a :: adjacent f b s) d) with (nth t (adjacent f b s) d).
  rewrite IH by lia. reflexivity.
Qed.

Lemma length_ffill_from (p : num) (s : Series num) :
  List.length (ffill_from p s) = List.length s.
Proof.
  revert p. induction s as [| x s IH]; intros p; simpl; trivial.
  destruct (is_nan x); simpl; now rewrite IH.
Qed.

Lemma length_fill_missing (fm : fill_method) (s : Series num) :
  List.length (fill_missing fm s) = List.length s.
Proof.
  destruct fm; simpl; trivial. apply length_ffill_from.
Qed.

(** Forward filling leaves a present cell as it is. *)
Lemma nth_ffill_present (p : num) (s : Series num) (t : nat) :
  is_nan (nth t s nan) = false -> nth t (ffill_from p s) nan = nth t s nan.
Proof.
  revert p t. induction s as [| x s IH]; intros p t H.
  - now destruct t.
  - simpl. destruct t as [| t]; simpl in *.
    + now rewrite H.
    + destruct (is_nan x); simpl; now apply IH.
Qed.


(** The daily returns of a column, cell by cell. *)
Lemma daily_returns_cons (fm : fill_method) (s : Series num) (a : num) (s' : Series num) :
  fill_missing fm s = a :: s' ->
  daily_returns fm s = of_Z 0 :: map fill0 (adjacent pct a s').
Proof.
  intros E. unfold daily_returns, pct_change. rewrite E.
  fold pct. rewrite zip_shift. unfold fillna. simpl. f_equal.
  unfold pct at 1. now rewrite div_nan_r, sub_nan_l, is_nan_nan.
Qed.

Lemma daily_return_nth (fm : fill_method) (s : Series num) (t : nat) :
  S t < List.length s ->
  nth (S t) (daily_returns fm s) nan
  = fill0 (pct (nth (S t) (fill_missing fm s) nan) (nth t (fill_missing fm s) nan)).
Proof.
  intros Ht. rewrite <- (length_fill_missing fm) in Ht.
  destruct (fill_missing fm s) as [| a s'] eqn:E; simpl in Ht; [lia |].
  rewrite (daily_returns_cons fm s _ _ E).
  change (nth (S t) (of_Z 0 :: map fill0 (adjacent pct a s')) nan)
    with (nth t (map fill0 (adjacent pct a s')) nan).
  rewrite nth_indep with (d' := fill0 nan).
  - rewrite map_nth. rewrite nth_adjacent by lia. reflexivity.
  - rewrite length_map.
    clear -Ht. revert a t Ht. induction s' as [| b s' IH]; intros a t Ht; simpl in *; [lia |].
    destruct t; [lia |]. specialize (IH b t). lia.
Qed.

(** The first cumulative return of a column that has a row. *)
Lemma cumulative_pct_first (r : Series num) :
  hd_error (cumulative_pct (of_Z 0 :: r)) = Some (of_Z 0).
Proof.
  unfold cumulative_pct, cumprod. simpl.
  rewrite one_plus_zero, one_not_nan, one_minus_one, zero_times_hundred.
  reflexivity.
Qed.

Lemma first_cumulative_return (fm : fill_method) (s : Series num) :
  s <> [] -> hd_error (cumulative_pct (daily_returns fm s)) = Some (of_Z 0).
Proof.
  intros Hs.
  destruct (fill_missing fm s) as [| a s'] eqn:E.
  - apply (f_equal (@List.length num)) in E. rewrite length_fill_missing in E.
    destruct s; [congruence | discriminate].
  - rewrite (daily_returns_cons fm s _ _ E). apply cumulative_pct_first.
Qed.

End ReturnsFacts.

(** ** binary64: division by zero *)

Lemma float_pos_cases (x : float) :
  (0 <? x)%float = true ->
  Prim2SF x = S754_infinity false \/
  exists m e, Prim2SF x = S754_finite false m e.
Proof.
  rewrite FloatAxioms.ltb_spec. change (Prim2SF 0) with (S754_zero false).
  unfold SFltb. destruct (Prim2SF x) as [s | [] | | [] m e]; simpl; try discriminate.
  - now left.
  - right. now exists m, e.
Qed.

(** A positive price over a prior price of zero: the quotient is +infinity
    and stays so after the subtraction of 1. *)
Lemma float_pct_zero_prior (x : float) :
  (0 <? x)%float = true -> (x / 0 - 1)%float = infinity.
Proof.
  intros H. apply Prim2SF_inj. rewrite sub_spec, div_spec.
  change (Prim2SF 0) with (S754_zero false).
  destruct (float_pos_cases x H) as [E | [m [e E]]]; rewrite E; reflexivity.
Qed.

Lemma float_infinity_not_zero : infinity <> 0%float.
Proof.
  intros H. pose proof (f_equal (fun x => (0 <? x)%float) H) as E.
  vm_compute in E. discriminate.
Qed.

Lemma float_nan_not_zero : PrimFloat.nan <> 0%float.
Proof.
  intros H. pose proof (f_equal PrimFloat.is_nan H) as E.
  vm_compute in E. discriminate.
Qed.

(** ** The claims about returns *)

(** C1 (as the code has it). For a price column and a date after the
    first: when both prices are present the daily return is
    [price[t] / price[t-1] - 1] in float64, replaced by 0 only when that is
    NaN; without forward filling a missing price at either date gives 0;
    with pandas' forward filling the same formula is applied to the forward
    filled column; and a positive price over a prior price of zero gives
    +infinity, not 0. *)
Theorem daily_return_of_prices (fm : fill_method) (s : Series float) (t : nat) :
  S t < List.length s ->
  let p := nth (S t) s nan in
  let q := nth t s nan in
  let r := nth (S t) (daily_returns fm s) nan in
  (is_nan p = false -> is_nan q = false -> r = fill0 (sub (div p q) (of_Z 1))) /\
  (fm = NoFill -> is_nan p = true \/ is_nan q = true -> r = of_Z 0) /\
  (fm = Pad ->
   r = fill0 (sub (div (nth (S t) (ffill s) nan) (nth t (ffill s) nan)) (of_Z 1))) /\
  (q = of_Z 0 -> ltb (of_Z 0) p = true -> r = infinity).
Proof.
  intros Ht p q r.
  assert (R : r = fill0 (pct (nth (S t) (fill_missing fm s) nan)
                             (nth t (fill_missing fm s) nan))).
  { apply daily_return_nth. exact Ht. }
  assert (Present : is_nan p = false -> is_nan q = false ->
                    r = fill0 (sub (div p q) (of_Z 1))).
  { intros Hp Hq. rewrite R. destruct fm; simpl fill_missing; trivial.
    unfold ffill. now rewrite !nth_ffill_present. }
  repeat split.
  - exact Present.
  - intros -> [Hp | Hq]; rewrite R; simpl fill_missing; unfold pct, fill0.
    + apply is_nan_eq in Hp. fold p. rewrite Hp, div_nan_l, sub_nan_l. reflexivity.
    + apply is_nan_eq in Hq. fold q. rewrite Hq, div_nan_r, sub_nan_l. reflexivity.
  - intros ->. exact R.
  - intros Hq Hp. rewrite Present.
    + rewrite Hq. simpl. rewrite float_pct_zero_prior by exact Hp. reflexivity.
    + apply (float_ltb_not_nan _ _ Hp).
    + rewrite Hq. reflexivity.
Qed.

Lemma daily_return_of_prices_witness :
  1 < List.length [of_Z 100; of_Z 110 : float] /\
  nth 1 (daily_returns Pad [of_Z 100; of_Z 110 : float]) nan
  = fill0 (sub (div (of_Z 110) (of_Z 100)) (of_Z 1)).
Proof.
  split; [simpl; lia |].
  apply (daily_return_of_prices Pad [of_Z 100; of_Z 110] 0); [simpl; lia | |];
    reflexivity.
Defined.

(** C1 fails as stated: with a prior price of 0 and a price of 5, both
    present, the daily return is +infinity under either pandas default, and
    +infinity is not 0.  Besides, the quotient the code evaluates is rounded
    differently from [(price[t] - price[t-1]) / price[t-1]]: for the prices
    100, 110 the return is strictly above [(110 - 100) / 100].  And with
    pandas' forward filling a missing prior price does not give 0: in the
    column 100, missing, 110 the last return is positive. *)
Lemma daily_return_zero_prior_price :
  is_nan (of_Z 0 : float) = false /\ is_nan (of_Z 5 : float) = false /\
  nth 1 (daily_returns Pad [of_Z 0; of_Z 5 : float]) nan = infinity /\
  nth 1 (daily_returns NoFill [of_Z 0; of_Z 5 : float]) nan = infinity /\
  infinity <> (of_Z 0 : float) /\
  ltb (div (sub (of_Z 110) (of_Z 100)) (of_Z 100))
      (nth 1 (daily_returns Pad [of_Z 100; of_Z 110 : float]) nan) = true /\
  ltb (of_Z 0) (nth 2 (daily_returns Pad [of_Z 100; nan; of_Z 110 : float]) nan)
  = true /\
  nth 2 (daily_returns NoFill [of_Z 100; nan; of_Z 110 : float]) nan = of_Z 0.
Proof.
  repeat split; try reflexivity. exact float_infinity_not_zero.
Qed.

(** C4. For every price frame with at least one row and one column, every
    column of the cumulative percentage returns starts with 0.0. *)
Theorem first_row_is_zero (fm : fill_method) (price_df : DataFrame float) :
  empty price_df = false -> aligned price_df ->
  Forall (fun c => hd_error (snd c) = Some (of_Z 0))
         (columns (total_pct_df fm price_df)).
Proof.
  intros Hne Hal. unfold empty in Hne. apply orb_false_elim in Hne as [Hrows _].
  apply Nat.eqb_neq in Hrows.
  unfold total_pct_df, pct_df, map_frame. cbn [columns]. rewrite map_map.
  apply Forall_map. unfold aligned in Hal.
  eapply Forall_impl; [| exact Hal]. intros [n s] Hlen. cbn [fst snd] in *.
  apply first_cumulative_return. intros ->. simpl in Hlen. congruence.
Qed.

Lemma first_row_is_zero_witness :
  Forall (fun c => hd_error (snd c) = Some (of_Z 0 : float))
    (columns (total_pct_df Pad
       (mkDataFrame [1; 2]%Z
          [("A.NS", [of_Z 100; of_Z 110]); ("B.NS", [of_Z 50; of_Z 45]);
           ("C.NS", [of_Z 10; of_Z 10])]))).
Proof.
  apply first_row_is_zero.
  - reflexivity.
  - repeat constructor.
Defined.






(** ** Facts about the row statistics *)

Section StatsFacts.
Context {num : Type} {N : Number num} {S : Sqrt num}.
Context {L : NanLaws N} {SL : SqrtLaws N S}.

Lemma notna_all_present (vals : list num) :
  Forall (fun x => is_nan x = false) vals -> notna vals = vals.
Proof.
  intros H. unfold notna. induction H as [| x l Hx Hl IH]; simpl; trivial.
  now rewrite Hx, IH.
Qed.

Lemma fillna_all_present (v : num) (vals : list num) :
  Forall (fun x => is_nan x = false) vals -> fillna v vals = vals.
Proof.
  intros H. unfold fillna. induction H as [| x l Hx Hl IH]; simpl; trivial.
  now rewrite Hx, IH.
Qed.

(** With every cell present and more cells than [ddof], the variance is
    the sum of the squared deviations from the mean over [n - ddof]. *)
Lemma nanvar_all_present (ddof : nat) (vals : list num) :
  Forall (fun x => is_nan x = false) vals ->
  ddof < List.length vals ->
  let n := of_Z (Z.of_nat (List.length vals)) in
  let avg := div (np_sum vals) n in
  nanvar ddof vals
  = div (np_sum (map (fun x => mul (sub avg x) (sub avg x)) vals))
        (sub n (of_Z (Z.of_nat ddof))).
Proof.
  intros H Hn. unfold nanvar.
  rewrite notna_all_present, fillna_all_present by exact H.
  replace (List.length vals <=? ddof)%nat with false
    by (symmetry; apply Nat.leb_gt; exact Hn).
  cbv zeta. f_equal. f_equal. apply map_ext_in. intros x Hx.
  rewrite Forall_forall in H. now rewrite (H x Hx).
Qed.

(** A row that holds a single cell has no sample variance. *)
Lemma nanstd_single (v : num) : nanstd 1 [v] = nan.
Proof.
  unfold nanstd, nanvar.
  assert (E : (List.length (notna [v]) <=? 1)%nat = true).
  { apply Nat.leb_le. unfold notna. simpl. destruct (negb (is_nan v)); simpl; lia. }
  rewrite E. rewrite div_nan_r. apply sqrt_nan.
Qed.

Lemma nanstd_nonneg (ddof : nat) (vals : list num) :
  is_nan (nanstd ddof vals) = true \/ leb (of_Z 0) (nanstd ddof vals) = true.
Proof. apply sqrt_nonneg. Qed.

Lemma nth_rows (f : list num -> num) (df : DataFrame num) (i : nat) :
  i < List.length (index df) ->
  nth i (map f (rows df)) nan = f (row df i).
Proof.
  intros Hi. unfold rows. rewrite map_map.
  rewrite nth_indep with (d' := f (row df 0)) by (now rewrite length_map, length_seq).
  rewrite (map_nth (fun k => f (row df k))). now rewrite seq_nth.
Qed.

End StatsFacts.




(** ** The claims about the statistic columns *)

Lemma ticker_frame_annotated {num : Type} {N : Number num} {S : Sqrt num}
  (cum : DataFrame num) :
  tickers_only cum = true -> ticker_frame (annotated cum) = cum.
Proof.
  intros T. rewrite tickers_only_spec in T.
  unfold ticker_frame, annotated. cbn [columns index].
  rewrite filter_keep_tickers by exact T.
  simpl. now rewrite app_nil_r, frame_eta.
Qed.

Lemma getitem_annotated {num : Type} {N : Number num} {S : Sqrt num}
  (cum : DataFrame num) :
  tickers_only cum = true ->
  getitem (annotated cum) "mean_pct_chg" = Ok (mean_axis1 cum) /\
  getitem (annotated cum) "median_pct_change" = Ok (median_axis1 cum) /\
  getitem (annotated cum) "std" = Ok (std_axis1 cum) /\
  getitem (annotated cum) "2std" = Ok (map (mul (of_Z 2)) (std_axis1 cum)).
Proof.
  intros T. rewrite tickers_only_spec in T.
  assert (T0 : forall l, In l stats_cols -> ~ In l (names cum)).
  { intros l Hl C. now apply (T l C). }
  unfold annotated.
  repeat split; (rewrite getitem_appended; [reflexivity | apply T0; simpl; auto]).
Qed.

(** C3. In the annotated frame the mean, the median and the standard
    deviation of a row are each computed over the ticker columns of that
    row and nothing else: the mean column is absent from the median, the
    mean and median columns from the standard deviation. *)
Theorem statistics_over_ticker_columns (fm : fill_method) (price_df : DataFrame float) :
  tickers_only price_df = true ->
  exists ann,
    annotate (total_pct_df fm price_df) = Ok ann /\
    ticker_frame ann = total_pct_df fm price_df /\
    getitem ann "mean_pct_chg" = Ok (mean_axis1 (ticker_frame ann)) /\
    getitem ann "median_pct_change" = Ok (median_axis1 (ticker_frame ann)) /\
    getitem ann "std" = Ok (std_axis1 (ticker_frame ann)).
Proof.
  intros T.
  assert (T' : tickers_only (total_pct_df fm price_df) = true).
  { unfold tickers_only, total_pct_df, pct_df in *. now rewrite !names_map_frame. }
  exists (annotated (total_pct_df fm price_df)).
  rewrite ticker_frame_annotated by exact T'.
  destruct (getitem_annotated _ T') as (Hm & Hd & Hs & _).
  repeat split; trivial. now apply annotate_tickers_only.
Qed.

Lemma statistics_over_ticker_columns_witness :
  exists ann,
    annotate (total_pct_df Pad
      (mkDataFrame [1; 2]%Z
         [("A.NS", [of_Z 100; of_Z 110 : float]); ("B.NS", [of_Z 50; of_Z 45])]))
    = Ok ann /\
    getitem ann "std" = Ok (std_axis1 (ticker_frame ann)).
Proof.
  destruct (statistics_over_ticker_columns Pad
    (mkDataFrame [1; 2]%Z
       [("A.NS", [of_Z 100; of_Z 110 : float]); ("B.NS", [of_Z 50; of_Z 45])]))
    as (ann & Ha & _ & _ & _ & Hs).
  - reflexivity.
  - exists ann. split; assumption.
Defined.

(** C8. Annotating never fails, and the [2std] column is the [std] column
    of the same frame with every cell doubled. *)
Theorem std2_is_twice_std (cum : DataFrame float) :
  exists ann std,
    annotate cum = Ok ann /\
    getitem ann "std" = Ok std /\
    getitem ann "2std" = Ok (map (fun x => mul (of_Z 2) x) std).
Proof.
  destruct (annotate_std_2std cum) as (ann & std & Ha & Hs & H2).
  exists ann, std. repeat split; assumption.
Qed.

(** C2 (as the code has it). The [std] cell of a row is the square root of
    pandas' default variance, the sample variance with divisor [n - 1]:
    over exactly one ticker column it is NaN; over two or more it is NaN or
    at least 0; and when the cells of the row are all present and there are
    at least two, it is the square root of the summed squared deviations
    from the mean divided by [n - 1]. *)
Theorem std_is_sample_std (fm : fill_method) (price_df : DataFrame float) (i : nat) :
  tickers_only price_df = true ->
  i < List.length (index price_df) ->
  exists ann std,
    annotate (total_pct_df fm price_df) = Ok ann /\
    getitem ann "std" = Ok std /\
    let vals := row (total_pct_df fm price_df) i in
    let n := of_Z (Z.of_nat (List.length vals)) in
    let avg := div (np_sum vals) n in
    (List.length (columns price_df) = 1 -> nth i std nan = nan) /\
    (2 <= List.length (columns price_df) ->
     is_nan (nth i std nan) = true \/ leb (of_Z 0) (nth i std nan) = true) /\
    (2 <= List.length (columns price_df) ->
     Forall (fun x => is_nan x = false) vals ->
     nth i std nan
     = sqrt (div (np_sum (map (fun x => mul (sub avg x) (sub avg x)) vals))
                 (sub n (of_Z 1)))).
Proof.
  intros T Hi.
  assert (T' : tickers_only (total_pct_df fm price_df) = true).
  { unfold tickers_only, total_pct_df, pct_df in *. now rewrite !names_map_frame. }
  set (cum := total_pct_df fm price_df) in *.
  exists (annotated cum), (std_axis1 cum).
  destruct (getitem_annotated _ T') as (_ & _ & Hs & _).
  split; [now apply annotate_tickers_only |]. split; [exact Hs |].
  assert (Hrow : nth i (std_axis1 cum) nan = nanstd 1 (row cum i)).
  { unfold std_axis1. apply (nth_rows (nanstd 1)). exact Hi. }
  assert (Hlen : List.length (row cum i) = List.length (columns price_df)).
  { unfold row, cum, total_pct_df, pct_df, map_frame. cbn [columns].
    now rewrite !length_map. }
  cbv zeta. rewrite Hrow. repeat split.
  - intros H1. rewrite <- Hlen in H1.
    destruct (row cum i) as [| v [| w l]]; try discriminate.
    apply nanstd_single.
  - intros _. apply nanstd_nonneg.
  - intros H2 Hp. unfold nanstd. f_equal.
    apply (nanvar_all_present 1 _ Hp). lia.
Qed.

Lemma std_is_sample_std_witness :
  exists ann std,
    annotate (total_pct_df Pad
      (mkDataFrame [1; 2]%Z [("A.NS", [of_Z 100; of_Z 110 : float])])) = Ok ann /\
    getitem ann "std" = Ok std /\
    nth 1 std nan = nan.
Proof.
  destruct (std_is_sample_std Pad
    (mkDataFrame [1; 2]%Z [("A.NS", [of_Z 100; of_Z 110 : float])]) 1)
    as (ann & std & Ha & Hs & H1 & _).
  - reflexivity.
  - simpl. lia.
  - exists ann, std. repeat split; trivial. apply H1. reflexivity.
Defined.

(** C2 fails as stated: over the single ticker column 100, 110 the [std]
    column is NaN in both rows, and NaN is not 0; and on the three tickers
    of the specification's scenario the last [std] is above 9, where the
    population standard deviation would be about 8.165. *)
Lemma std_single_ticker_is_nan :
  (a <- annotate (total_pct_df Pad
          (mkDataFrame [1; 2]%Z [("A.NS", [of_Z 100; of_Z 110 : float])])) ;;
   getitem a "std")%result = Ok [nan; nan] /\
  (a <- annotate (total_pct_df NoFill
          (mkDataFrame [1; 2]%Z [("A.NS", [of_Z 100; of_Z 110 : float])])) ;;
   getitem a "std")%result = Ok [nan; nan] /\
  (nan : float) <> of_Z 0 /\
  (a <- annotate (total_pct_df Pad
          (mkDataFrame [1; 2]%Z
             [("A.NS", [of_Z 100; of_Z 110 : float]);
              ("B.NS", [of_Z 50; of_Z 45]);
              ("C.NS", [of_Z 10; of_Z 10])])) ;;
   Ok (ltb (of_Z 9) (last_value a "std")))%result = Ok true.
Proof.
  repeat split; try reflexivity. exact float_nan_not_zero.
Qed.

(** ** Facts about the chart *)

Section FigureFacts.
Context {num : Type} {N : Number num} {S : Sqrt num}.

Lemma getitem_column (df : DataFrame num) (label : string) :
  In label (names df) -> getitem df label = Ok (column df label).
Proof.
  intros H. unfold column, getitem.
  destruct (find _ (columns df)) as [c |] eqn:F; trivial.
  exfalso. apply in_map_iff in H as [c [Hc1 Hc2]].
  apply (find_none _ _ F) in Hc2. rewrite Hc1, String.eqb_refl in Hc2. discriminate.
Qed.

Lemma loc_last_row (df : DataFrame num) (label : string) :
  In label (names df) -> loc (last_row df) label = Ok (last_value df label).
Proof.
  unfold last_value, column, getitem, loc, last_row, names.
  induction (columns df) as [| c cs IH]; intros H; [contradiction |].
  cbn [map find fst snd] in *. unfold Series in *.
  destruct (String.eqb (fst c) label) eqn:E; trivial.
  apply IH. destruct H as [H | H]; trivial.
  rewrite H, String.eqb_refl in E. discriminate.
Qed.

Lemma iloc_last_rows (df : DataFrame num) :
  empty df = false -> iloc_last df = Ok (last_row df).
Proof.
  unfold empty, iloc_last. intros H. apply orb_false_elim in H as [H _].
  now rewrite H.
Qed.

Lemma show_stock_above (df : DataFrame num) (filter_option col : string) :
  (forall l, In l stats_cols -> In l (names df)) ->
  In col (names df) ->
  show_stock filter_option (last_row df) col = Ok (above df filter_option col).
Proof.
  intros Hs Hc. unfold show_stock, above.
  rewrite (loc_last_row df col Hc).
  rewrite !loc_last_row by (apply Hs; simpl; auto).
  cbn [result_bind].
  repeat match goal with
  | |- context [String.eqb filter_option ?l] => destruct (String.eqb filter_option l)
  end; reflexivity.
Qed.

Lemma plot_stocks_closed (df : DataFrame num) (filter_option : string)
  (cols : list string) (fig : Figure num) :
  (forall l, In l stats_cols -> In l (names df)) ->
  (forall c, In c cols -> In c (names df)) ->
  plot_stocks df filter_option (last_row df) cols fig
  = Ok (mkFigure
          (data fig ++ map (stock_scatter df) (filter (above df filter_option) cols))
          (layout fig)).
Proof.
  intros Hs. revert fig. induction cols as [| c cols IH]; intros fig Hc.
  - simpl. rewrite app_nil_r. now destruct fig.
  - cbn [plot_stocks]. rewrite show_stock_above by (trivial; apply Hc; now left).
    cbn [result_bind filter].
    assert (Hc' : forall c', In c' cols -> In c' (names df))
      by (intros c' H'; apply Hc; now right).
    destruct (above df filter_option c).
    + unfold stock_trace. rewrite getitem_column by (apply Hc; now left).
      cbn [result_bind]. rewrite IH by exact Hc'.
      unfold add_trace. cbn [data layout map]. now rewrite <- app_assoc.
    + cbn [result_bind]. now rewrite IH by exact Hc'.
Qed.

Lemma plot_reference_lines_closed (df : DataFrame num) (fig : Figure num) :
  (forall l, In l stats_cols -> In l (names df)) ->
  plot_reference_lines df fig
  = Ok (mkFigure (data fig ++ reference_lines df) (layout fig)).
Proof.
  intros Hs. unfold plot_reference_lines, reference_trace.
  rewrite !getitem_column by (apply Hs; simpl; auto).
  cbn [result_bind]. unfold add_trace, reference_lines. cbn [data layout].
  now rewrite <- !app_assoc.
Qed.

Lemma names_annotated (cum : DataFrame num) :
  names (annotated cum) = (names cum ++ stats_cols)%list.
Proof.
  unfold names, annotated. cbn [columns]. now rewrite map_app.
Qed.

Lemma stock_cols_annotated (cum : DataFrame num) :
  tickers_only cum = true -> stock_cols (annotated cum) = names cum.
Proof.
  intros T. rewrite tickers_only_spec in T.
  unfold stock_cols. rewrite names_annotated, filter_app.
  replace (filter _ stats_cols) with (@nil string) by reflexivity.
  rewrite app_nil_r. induction (names cum) as [| n ns IH]; trivial.
  assert (E : mem n stats_cols = false).
  { apply mem_false, T. now left. }
  cbn [filter]. rewrite E. cbn [negb]. f_equal.
  apply IH. intros m Hm. apply T. now right.
Qed.

(** The figure of an annotated frame in closed form: the ticker columns
    that pass the filter, in column order, then the four reference lines. *)
Lemma build_figure_annotated (cum : DataFrame num) (filter_option : string) :
  tickers_only cum = true -> empty cum = false ->
  build_figure (annotated cum) filter_option
  = Ok (mkFigure
          (map (stock_scatter (annotated cum))
               (filter (above (annotated cum) filter_option) (names cum))
           ++ reference_lines (annotated cum))
          (Some (chart_layout filter_option))).
Proof.
  intros T Hne.
  assert (Hs : forall l, In l stats_cols -> In l (names (annotated cum))).
  { intros l Hl. rewrite names_annotated. apply in_or_app. now right. }
  unfold build_figure. rewrite iloc_last_rows.
  2:{ unfold empty in *. cbn [index columns annotated].
      apply orb_false_elim in Hne as [H1 H2]. rewrite H1. simpl.
      rewrite length_app. simpl. apply Nat.eqb_neq. lia. }
  cbn [result_bind]. rewrite stock_cols_annotated by exact T.
  rewrite plot_stocks_closed; trivial.
  2:{ intros c Hc. rewrite names_annotated. apply in_or_app. now left. }
  cbn [result_bind]. rewrite plot_reference_lines_closed by exact Hs.
  reflexivity.
Qed.

Lemma shown_stocks_closed (df : DataFrame num) (sel : list string) (l : option Layout) :
  shown_stocks (mkFigure (map (stock_scatter df) sel ++ reference_lines df) l) = sel.
Proof.
  unfold shown_stocks. cbn [data]. rewrite filter_app, map_app.
  replace (filter _ (reference_lines df)) with (@nil (Scatter num)) by reflexivity.
  simpl. rewrite app_nil_r. induction sel as [| c sel IH]; trivial.
  simpl. now rewrite IH.
Qed.

End FigureFacts.

(** ** The claims about the chart and the page *)

Lemma tickers_only_total_pct_df {num : Type} {N : Number num}
  (fm : fill_method) (price_df : DataFrame num) :
  tickers_only price_df = true -> tickers_only (total_pct_df fm price_df) = true.
Proof.
  unfold tickers_only, total_pct_df, pct_df. now rewrite !names_map_frame.
Qed.

Lemma empty_total_pct_df {num : Type} {N : Number num}
  (fm : fill_method) (price_df : DataFrame num) :
  empty (total_pct_df fm price_df) = empty price_df.
Proof.
  unfold empty, total_pct_df, pct_df, map_frame. cbn [index columns].
  now rewrite !length_map.
Qed.

Lemma names_total_pct_df {num : Type} {N : Number num}
  (fm : fill_method) (price_df : DataFrame num) :
  names (total_pct_df fm price_df) = names price_df.
Proof.
  unfold total_pct_df, pct_df. now rewrite !names_map_frame.
Qed.

(** C5. Whatever the radio button says, the ticker traces of the chart are
    the ticker columns, in column order, that pass a test on the last row
    alone: every ticker for "All stocks", and otherwise the tickers whose
    last value is strictly greater than the last mean, median, std or 2std;
    a ticker whose last value equals the statistic is left out. *)
Theorem classification_by_last_row (fm : fill_method) (price_df : DataFrame float)
  (mode : FilterSelection) :
  empty price_df = false -> tickers_only price_df = true ->
  exists ann fig,
    annotate (total_pct_df fm price_df) = Ok ann /\
    build_figure ann (radio_label mode) = Ok fig /\
    shown_stocks fig
    = filter (fun ticker =>
                match statistic mode with
                | None => true
                | Some st => ltb (last_value ann st) (last_value ann ticker)
                end) (names price_df) /\
    (mode = AllStocks -> shown_stocks fig = names price_df) /\
    (forall ticker st,
       statistic mode = Some st ->
       last_value ann ticker = last_value ann st ->
       ~ In ticker (shown_stocks fig)).
Proof.
  intros Hne T.
  pose proof (tickers_only_total_pct_df fm price_df T) as T'.
  assert (Hne' : empty (total_pct_df fm price_df) = false)
    by now rewrite empty_total_pct_df.
  set (cum := total_pct_df fm price_df) in *.
  exists (annotated cum). eexists.
  split; [now apply annotate_tickers_only |].
  split; [now apply build_figure_annotated |].
  rewrite shown_stocks_closed.
  assert (E : filter (above (annotated cum) (radio_label mode)) (names cum)
              = filter (fun ticker =>
                          match statistic mode with
                          | None => true
                          | Some st => ltb (last_value (annotated cum) st)
                                           (last_value (annotated cum) ticker)
                          end) (names price_df)).
  { unfold cum at 2. rewrite names_total_pct_df. apply filter_ext.
    intros c. now destruct mode. }
  rewrite E. repeat split.
  - intros ->. simpl. clear. induction (names price_df) as [| n ns IH]; trivial.
    simpl. now rewrite IH.
  - intros ticker st Hst Htie Hin. apply filter_In in Hin as [_ Hin].
    rewrite Hst, Htie in Hin. simpl in Hin.
    rewrite float_ltb_irrefl in Hin. discriminate.
Qed.

Lemma classification_by_last_row_witness :
  exists ann fig,
    annotate (total_pct_df Pad
      (mkDataFrame [1; 2]%Z
         [("A.NS", [of_Z 100; of_Z 110 : float]); ("B.NS", [of_Z 50; of_Z 45]);
          ("C.NS", [of_Z 10; of_Z 10])])) = Ok ann /\
    build_figure ann (radio_label AboveMean) = Ok fig /\
    shown_stocks fig
    = filter (fun ticker => ltb (last_value ann "mean_pct_chg") (last_value ann ticker))
             ["A.NS"; "B.NS"; "C.NS"].
Proof.
  destruct (classification_by_last_row Pad
    (mkDataFrame [1; 2]%Z
       [("A.NS", [of_Z 100; of_Z 110 : float]); ("B.NS", [of_Z 50; of_Z 45]);
        ("C.NS", [of_Z 10; of_Z 10])]) AboveMean)
    as (ann & fig & Ha & Hf & Hs & _).
  - reflexivity.
  - reflexivity.
  - exists ann, fig. repeat split; assumption.
Defined.

(** C6. For every value of the radio button the traces of the chart are
    some of the ticker columns followed by the four reference lines Mean,
    Median, Std Dev and 2 Std Dev, in that order, each carrying its
    statistic column. *)
Theorem reference_lines_follow_stocks (fm : fill_method) (price_df : DataFrame float)
  (filter_option : string) :
  empty price_df = false -> tickers_only price_df = true ->
  exists ann fig sel,
    annotate (total_pct_df fm price_df) = Ok ann /\
    build_figure ann filter_option = Ok fig /\
    incl sel (names price_df) /\
    data fig = (map (stock_scatter ann) sel ++ reference_lines ann)%list /\
    map (@name float) (data fig)
    = (sel ++ ["Mean"; "Median"; "Std Dev"; "2 Std Dev"])%list.
Proof.
  intros Hne T.
  pose proof (tickers_only_total_pct_df fm price_df T) as T'.
  assert (Hne' : empty (total_pct_df fm price_df) = false)
    by now rewrite empty_total_pct_df.
  set (cum := total_pct_df fm price_df) in *.
  exists (annotated cum). eexists.
  exists (filter (above (annotated cum) filter_option) (names cum)).
  split; [now apply annotate_tickers_only |].
  split; [now apply build_figure_annotated |].
  split; [| split].
  - intros c Hc. apply filter_In in Hc as [Hc _].
    unfold cum in Hc. now rewrite names_total_pct_df in Hc.
  - reflexivity.
  - cbn [data]. rewrite map_app, map_map. cbn [stock_scatter name].
    now rewrite map_id.
Qed.

Lemma reference_lines_follow_stocks_witness :
  exists ann fig sel,
    build_figure ann "Above 2 std (last value)" = Ok fig /\
    map (@name float) (data fig)
    = (sel ++ ["Mean"; "Median"; "Std Dev"; "2 Std Dev"])%list.
Proof.
  destruct (reference_lines_follow_stocks Pad
    (mkDataFrame [1; 2]%Z
       [("A.NS", [of_Z 100; of_Z 110 : float]); ("B.NS", [of_Z 50; of_Z 45])])
    "Above 2 std (last value)")
    as (ann & fig & sel & _ & Hf & _ & _ & Hn).
  - reflexivity.
  - reflexivity.
  - exists ann, fig, sel. split; assumption.
Defined.


(** The scenario of the specification: A 100, 110; B 50, 45; C 10, 10.
    "Above mean" draws A alone. *)
Example scenario_above_mean :
  (a <- annotate (total_pct_df Pad
          (mkDataFrame [1; 2]%Z
             [("A.NS", [of_Z 100; of_Z 110 : float]);
              ("B.NS", [of_Z 50; of_Z 45]);
              ("C.NS", [of_Z 10; of_Z 10])])) ;;
   fig <- build_figure a "Above mean (last value)" ;;
   Ok (shown_stocks fig))%result = Ok ["A.NS"].
Proof. reflexivity. Qed.

(** C7. When the price source returns a frame with no row or no column,
    the page shows the warning and stops: no table of returns, no chart,
    no exception; the whole script then shows the group table and the
    warning only. *)
Theorem no_data_stops (fm : fill_method) (price_df : DataFrame float)
  (show_table : bool) (filter_option : string) :
  empty price_df = true ->
  dashboard fm price_df show_table filter_option
  = ([st_warning "No price data available for selected date range."], Stopped) /\
  forall csv group_no download syms,
    symbols (df_group (stock_mcap_df csv) group_no) = Ok syms ->
    download syms = price_df ->
    script fm csv group_no download show_table filter_option
    = ([st_group_table (df_group (stock_mcap_df csv) group_no);
        st_warning "No price data available for selected date range."],
       Stopped).
Proof.
  intros He.
  assert (D : dashboard fm price_df show_table filter_option
              = ([st_warning "No price data available for selected date range."],
                 Stopped)).
  { unfold dashboard. now rewrite He. }
  split; [exact D |].
  intros csv group_no download syms Hs Hd. unfold script.
  rewrite Hs, Hd, D. reflexivity.
Qed.

Lemma no_data_stops_witness :
  dashboard Pad (mkDataFrame [] [] : DataFrame float) true "All stocks"
  = ([st_warning "No price data available for selected date range."], Stopped).
Proof.
  apply (no_data_stops Pad (mkDataFrame [] []) true "All stocks").
  reflexivity.
Defined.

(** ** Facts about the sort *)

Section SortFacts.
Context {num : Type} {N : Number num} {O : OrderLaws N}.
Context {A : Type} (key : A -> num).

Lemma insert_by_perm (x : A) (l : list A) :
  Permutation (insert_by key x l) (x :: l).
Proof.
  induction l as [| y l IH]; simpl; [reflexivity |].
  destruct (ltb (key y) (key x)); [| reflexivity].
  rewrite IH. apply perm_swap.
Qed.

Lemma sort_by_perm (l : list A) : Permutation (sort_by key l) l.
Proof.
  induction l as [| x l IH]; simpl; [reflexivity |].
  rewrite insert_by_perm. now constructor.
Qed.

Lemma insert_by_sorted (x : A) (l : list A) :
  Forall (fun y => is_nan (key y) = false) l ->
  StronglySorted (ascending key) l ->
  StronglySorted (ascending key) (insert_by key x l).
Proof.
  intros Hp Hs. induction Hs as [| y l Hs IH Hy]; simpl.
  - repeat constructor.
  - inversion Hp as [| ? ? Hpy Hpl]; subst.
    destruct (ltb (key y) (key x)) eqn:E.
    + constructor; [now apply IH |].
      apply (Permutation_Forall (x := x :: l)).
      * symmetry. apply insert_by_perm.
      * constructor; [| exact Hy]. unfold ascending. now apply ltb_asym.
    + constructor; [now constructor |].
      constructor; [exact E |].
      eapply Forall_impl; [| exact Hy]. intros z Hz. unfold ascending in *.
      now apply (ltb_negtrans (key x) (key y) (key z)).
Qed.

Lemma sort_by_sorted (l : list A) :
  Forall (fun y => is_nan (key y) = false) l ->
  StronglySorted (ascending key) (sort_by key l).
Proof.
  induction 1 as [| x l Hx Hl IH]; simpl; [constructor |].
  apply insert_by_sorted; trivial.
  apply (Permutation_Forall (x := l)); [symmetry; apply sort_by_perm | exact Hl].
Qed.

Lemma StronglySorted_app (R : A -> A -> Prop) (l1 l2 : list A) :
  StronglySorted R l1 -> StronglySorted R l2 ->
  (forall a b, In a l1 -> In b l2 -> R a b) ->
  StronglySorted R (l1 ++ l2).
Proof.
  intros H1 H2 H. induction H1 as [| a l1 H1 IH Ha]; simpl; trivial.
  constructor.
  - apply IH. intros x y Hx Hy. apply H; [now right | exact Hy].
  - apply Forall_app. split; trivial.
    apply Forall_forall. intros y Hy. apply H; [now left | exact Hy].
Qed.

Lemma StronglySorted_rev (l : list A) :
  StronglySorted (ascending key) l -> StronglySorted (descending key) (rev l).
Proof.
  induction 1 as [| a l Hs IH Ha]; simpl; [constructor |].
  apply StronglySorted_app; trivial.
  - repeat constructor.
  - intros x y Hx [<- | []]. apply in_rev in Hx.
    rewrite Forall_forall in Ha. exact (Ha x Hx).
Qed.

Lemma StronglySorted_nth_error (R : A -> A -> Prop) (l : list A) (i j : nat) (a b : A) :
  StronglySorted R l -> i < j ->
  nth_error l i = Some a -> nth_error l j = Some b -> R a b.
Proof.
  intros Hs. revert i j. induction Hs as [| x l Hs IH Hx]; intros i j Hij Hi Hj.
  - now destruct i.
  - destruct j as [| j]; [lia |]. simpl in Hj. destruct i as [| i]; simpl in Hi.
    + inversion Hi; subst. rewrite Forall_forall in Hx.
      apply Hx. eapply nth_error_In; eauto.
    + apply (IH i j); trivial. lia.
Qed.

End SortFacts.

Section StockListFacts.
Context {num : Type} {N : Number num} {L : NanLaws N} {O : OrderLaws N}.

Lemma fillna_row_present (r : stock_row num) :
  is_nan (market_cap (fillna_row r)) = false.
Proof.
  unfold fillna_row. simpl. destruct (is_nan (market_cap r)) eqn:E; trivial.
  apply zero_not_nan.
Qed.

Lemma filter_all (f : stock_row num -> bool) (l : list (stock_row num)) :
  Forall (fun r => f r = true) l -> filter f l = l.
Proof.
  induction 1 as [| r l Hr Hl IH]; simpl; trivial. now rewrite Hr, IH.
Qed.

Lemma filter_none (f : stock_row num -> bool) (l : list (stock_row num)) :
  Forall (fun r => f r = false) l -> filter f l = [].
Proof.
  induction 1 as [| r l Hr Hl IH]; simpl; trivial. now rewrite Hr, IH.
Qed.

(** After [fillna(0)] no key is missing, so the sorted list is the reverse
    of the ascending sort of the reversed rows. *)
Lemma stock_mcap_df_closed (csv : list (stock_row num)) :
  stock_mcap_df csv = rev (sort_by (@market_cap num) (rev (map fillna_row csv))).
Proof.
  unfold stock_mcap_df, sort_values_desc.
  assert (P : Forall (fun r => is_nan (market_cap r) = false) (map fillna_row csv)).
  { apply Forall_map, Forall_forall. intros r _. apply fillna_row_present. }
  rewrite filter_all, filter_none; trivial.
  - now rewrite app_nil_r.
  - eapply Forall_impl; [| exact P]. intros r Hr. now rewrite Hr.
Qed.

Lemma stock_mcap_df_perm (csv : list (stock_row num)) :
  Permutation (map fillna_row csv) (stock_mcap_df csv).
Proof.
  rewrite stock_mcap_df_closed. rewrite <- Permutation_rev.
  rewrite sort_by_perm. apply Permutation_rev.
Qed.

Lemma stock_mcap_df_sorted (csv : list (stock_row num)) :
  StronglySorted (descending (@market_cap num)) (stock_mcap_df csv).
Proof.
  rewrite stock_mcap_df_closed. apply StronglySorted_rev, sort_by_sorted.
  apply Forall_forall. intros r Hr. apply in_rev in Hr.
  apply in_map_iff in Hr as [r0 [<- _]]. apply fillna_row_present.
Qed.

End StockListFacts.

(** C10. Loading the ticker list never fails and loses no row: the result
    is a permutation of the rows with every missing cell replaced by 0.  A
    row whose market cap was missing has market cap 0 afterwards and stands
    after every row with a positive market cap, hence in the same group of
    200 or a later one. *)
Theorem missing_market_caps_sort_last (csv : list (stock_row float)) :
  Permutation (map fillna_row csv) (stock_mcap_df csv) /\
  forall r p i j,
    In r csv -> In p csv ->
    is_nan (market_cap r) = true ->
    ltb (of_Z 0) (market_cap p) = true ->
    nth_error (stock_mcap_df csv) i = Some (fillna_row r) ->
    nth_error (stock_mcap_df csv) j = Some (fillna_row p) ->
    market_cap (fillna_row r) = of_Z 0 /\
    j < i /\ j / group_size <= i / group_size.
Proof.
  split; [apply stock_mcap_df_perm |].
  intros r p i j _ _ Hr Hp Hi Hj.
  assert (Er : market_cap (fillna_row r) = of_Z 0).
  { unfold fillna_row. cbn [market_cap]. now rewrite Hr. }
  assert (Ep : market_cap (fillna_row p) = market_cap p).
  { unfold fillna_row. cbn [market_cap].
    destruct (float_ltb_not_nan _ _ Hp) as [_ Hn].
    change (is_nan (market_cap p) = false) in Hn. now rewrite Hn. }
  assert (Hlt : j < i).
  { destruct (Nat.lt_trichotomy i j) as [C | [C | C]]; trivial; exfalso.
    - pose proof (StronglySorted_nth_error _ _ _ _ _ _
                    (stock_mcap_df_sorted csv) C Hi Hj) as D.
      unfold descending in D. rewrite Er, Ep in D. congruence.
    - subst j. assert (E : fillna_row r = fillna_row p) by congruence.
      rewrite <- E, Er in Ep. rewrite <- Ep in Hp.
      rewrite (ltb_irrefl (of_Z 0)) in Hp. discriminate. }
  repeat split; trivial.
  apply Nat.Div0.div_le_mono. lia.
Qed.

Example stock_mcap_df_example :
  stock_mcap_df
    [mkRow (Str "A") (of_Z 5 : float); mkRow (Str "B") nan; mkRow (Str "C") (of_Z 7)]
  = [mkRow (Str "C") (of_Z 7); mkRow (Str "A") (of_Z 5); mkRow (Str "B") (of_Z 0)].
Proof. reflexivity. Qed.

(** ** Further properties: the market-cap groups (lines 31-52) *)

Section GroupFacts.
Context {num : Type}.

Lemma chunks_concat {A : Type} (n k : nat) (l : list A) :
  List.length l <= k * n ->
  List.concat (map (fun i => firstn n (skipn (i * n) l)) (seq 0 k)) = l.
Proof.
  revert l. induction k as [| k IH]; intros l Hl.
  - destruct l; [reflexivity | simpl in Hl; lia].
  - cbn [seq map List.concat]. rewrite <- seq_shift, map_map.
    rewrite (map_ext _ (fun i => firstn n (skipn (i * n) (skipn n l)))).
    + rewrite IH by (rewrite length_skipn; lia). apply firstn_skipn.
    + intros i. rewrite skipn_skipn. do 2 f_equal. lia.
Qed.

Lemma total_groups_covers (l : list (stock_row num)) :
  List.length l <= total_groups l * group_size.
Proof.
  unfold total_groups, group_size.
  pose proof (Nat.div_mod_eq (List.length l + (200 - 1)) 200) as E.
  pose proof (Nat.mod_upper_bound (List.length l + (200 - 1)) 200) as B.
  lia.
Qed.

Lemma total_groups_tight (l : list (stock_row num)) :
  total_groups l * group_size < List.length l + group_size.
Proof.
  unfold total_groups, group_size.
  pose proof (Nat.Div0.mul_div_le (List.length l + (200 - 1)) 200). lia.
Qed.

Lemma length_df_group (l : list (stock_row num)) (g : nat) :
  List.length (df_group l g)
  = Nat.min group_size (List.length l - (g - 1) * group_size).
Proof.
  unfold df_group. now rewrite length_firstn, length_skipn.
Qed.

(** Where the rows of a group stand in the list. *)
Lemma In_df_group (l : list (stock_row num)) (g : nat) (r : stock_row num) :
  In r (df_group l g) ->
  exists i, (g - 1) * group_size <= i < (g - 1) * group_size + group_size /\
            nth_error l i = Some r.
Proof.
  intros H. apply In_nth_error in H as [k Hk]. unfold df_group in Hk.
  rewrite nth_error_firstn in Hk.
  destruct (k <? group_size)%nat eqn:E; [| discriminate].
  apply Nat.ltb_lt in E. rewrite nth_error_skipn in Hk.
  exists ((g - 1) * group_size + k). split; [lia | exact Hk].
Qed.

Lemma df_groups_concat (l : list (stock_row num)) :
  List.concat (map (df_group l) (seq 1 (total_groups l))) = l.
Proof.
  rewrite <- seq_shift, map_map.
  rewrite (map_ext _ (fun i => firstn group_size (skipn (i * group_size) l))).
  - apply chunks_concat. apply total_groups_covers.
  - intros i. unfold df_group. now rewrite Nat.sub_succ, Nat.sub_0_r.
Qed.

End GroupFacts.

(** X1. The groups 1 to [total_groups] cut the sorted ticker list into
    consecutive pieces: put end to end they give the list back, so every
    ticker is in exactly one group. *)
Theorem groups_partition (csv : list (stock_row float)) :
  List.concat (map (df_group (stock_mcap_df csv))
                   (seq 1 (total_groups (stock_mcap_df csv))))
  = stock_mcap_df csv /\
  forall r, In r csv ->
    exists g, 1 <= g <= total_groups (stock_mcap_df csv) /\
              In (fillna_row r) (df_group (stock_mcap_df csv) g).
Proof.
  split; [apply df_groups_concat |].
  intros r Hr.
  assert (Hin : In (fillna_row r) (stock_mcap_df csv)).
  { apply (Permutation_in _ (stock_mcap_df_perm csv)). now apply in_map. }
  rewrite <- (df_groups_concat (stock_mcap_df csv)) in Hin.
  apply in_concat in Hin as (piece & Hp & Hin).
  apply in_map_iff in Hp as (g & <- & Hg). apply in_seq in Hg.
  exists g. split; [lia | exact Hin].
Qed.

(** X2. Every group the select box offers holds between 1 and 200 rows,
    every group but the last exactly 200; a group number beyond
    [total_groups] selects no row and raises nothing. *)
Theorem group_sizes (l : list (stock_row float)) (g : nat) :
  1 <= g ->
  (g <= total_groups l ->
   1 <= List.length (df_group l g) <= group_size) /\
  (g < total_groups l -> List.length (df_group l g) = group_size) /\
  (total_groups l < g -> df_group l g = []).
Proof.
  intros Hg. rewrite length_df_group.
  pose proof (total_groups_covers l) as C.
  pose proof (total_groups_tight l) as T.
  unfold group_size in *. split; [| split]; intros Hb; try lia.
  apply length_zero_iff_nil. rewrite length_df_group. unfold group_size. lia.
Qed.

Lemma group_sizes_witness :
  1 <= List.length
         (df_group [mkRow (Str "A") (of_Z 5 : float); mkRow (Str "B") (of_Z 7)] 1)
    <= group_size.
Proof.
  apply (group_sizes [mkRow (Str "A") (of_Z 5 : float); mkRow (Str "B") (of_Z 7)] 1).
  - lia.
  - vm_compute. lia.
Defined.

(** X3. After loading, the ticker list is in descending order of market
    cap with no market cap missing: a row never has a smaller market cap
    than a row after it, and no row of the file is lost or added. *)
Theorem stock_list_sorted_descending (csv : list (stock_row float)) :
  List.length (stock_mcap_df csv) = List.length csv /\
  Forall (fun r => is_nan (market_cap r) = false) (stock_mcap_df csv) /\
  forall i j ri rj,
    i < j ->
    nth_error (stock_mcap_df csv) i = Some ri ->
    nth_error (stock_mcap_df csv) j = Some rj ->
    ltb (market_cap ri) (market_cap rj) = false.
Proof.
  repeat split.
  - rewrite <- (Permutation_length (stock_mcap_df_perm csv)). apply length_map.
  - apply (Permutation_Forall (stock_mcap_df_perm csv)).
    apply Forall_map, Forall_forall. intros r _. apply fillna_row_present.
  - intros i j ri rj Hij Hi Hj.
    exact (StronglySorted_nth_error _ _ _ _ _ _
             (stock_mcap_df_sorted csv) Hij Hi Hj).
Qed.

(** X4. The groups follow the market cap: no ticker of a later group has a
    larger market cap than a ticker of an earlier group. *)
Theorem groups_ordered_by_market_cap (csv : list (stock_row float))
  (g1 g2 : nat) (r1 r2 : stock_row float) :
  1 <= g1 -> g1 < g2 ->
  In r1 (df_group (stock_mcap_df csv) g1) ->
  In r2 (df_group (stock_mcap_df csv) g2) ->
  ltb (market_cap r1) (market_cap r2) = false.
Proof.
  intros H1 H12 Hr1 Hr2.
  apply In_df_group in Hr1 as (i & Hi & Ei).
  apply In_df_group in Hr2 as (j & Hj & Ej).
  assert (Hij : i < j) by (unfold group_size in *; nia).
  exact (StronglySorted_nth_error _ _ _ _ _ _
           (stock_mcap_df_sorted csv) Hij Ei Ej).
Qed.

(** A ticker file of 201 rows with the market caps 0 to 200: two groups. *)
Definition two_groups : list (stock_row float) :=
  map (fun i => mkRow (Str "T") (of_Z (Z.of_nat i))) (seq 0 201).

Lemma groups_ordered_by_market_cap_witness :
  ltb (market_cap (mkRow (Str "T") (of_Z 200 : float)))
      (market_cap (mkRow (Str "T") (of_Z 0 : float))) = false.
Proof.
  apply (groups_ordered_by_market_cap two_groups 1 2
           (mkRow (Str "T") (of_Z 200)) (mkRow (Str "T") (of_Z 0))).
  - lia.
  - lia.
  - vm_compute. left. reflexivity.
  - vm_compute. left. reflexivity.
Defined.

(** ** Further properties: the symbols (line 60) *)

Section SymbolFacts.
Context {num : Type}.

Lemma symbols_of_strings (g : list (stock_row num)) :
  (forall r, In r g -> exists s, SYMBOL r = Str s) ->
  exists syms,
    symbols g = Ok syms /\
    Forall2 (fun r n => exists s, SYMBOL r = Str s /\ n = s ++ ".NS") g syms.
Proof.
  induction g as [| r g IH]; intros H.
  - exists []. split; [reflexivity | constructor].
  - destruct IH as (rest & E & F); [intros r' Hr'; apply H; now right |].
    destruct (H r) as [s Hs]; [now left |].
    exists ((s ++ ".NS") :: rest). cbn [symbols]. rewrite Hs, E. split; trivial.
    constructor; trivial. now exists s.
Qed.

Lemma symbols_of_number (g : list (stock_row num)) (r : stock_row num) (v : num) :
  In r g -> SYMBOL r = Num v -> symbols g = Raise TypeError.
Proof.
  induction g as [| a g IH]; intros Hin Hr; [contradiction |].
  cbn [symbols]. destruct (SYMBOL a) as [s | w] eqn:Ea; trivial.
  destruct Hin as [-> | Hin]; [congruence |].
  now rewrite IH.
Qed.

End SymbolFacts.

(** X5. When every SYMBOL cell of the group is a string, line 60 yields one
    label per row, in row order, each the symbol followed by [.NS]; a
    single cell that is a number makes it raise TypeError. *)
Theorem symbols_outcome (g : list (stock_row float)) :
  ((forall r, In r g -> exists s, SYMBOL r = Str s) ->
   exists syms,
     symbols g = Ok syms /\
     Forall2 (fun r n => exists s, SYMBOL r = Str s /\ n = s ++ ".NS") g syms) /\
  ((exists r v, In r g /\ SYMBOL r = Num v) -> symbols g = Raise TypeError).
Proof.
  split.
  - apply symbols_of_strings.
  - intros (r & v & Hin & Hr). exact (symbols_of_number g r v Hin Hr).
Qed.

(** X6. With a pandas before 3.0, where [fillna(0)] writes the number 0
    into an object column: a row of the ticker file whose SYMBOL is empty
    survives loading as the number 0, lands in one of the groups, and
    selecting that group ends the run with TypeError right after the group
    table: no price is downloaded and nothing else is shown. *)
Theorem missing_symbol_raises (csv : list (stock_row float))
  (download : list string -> DataFrame float) (show_table : bool)
  (filter_option : string) (r : stock_row float) :
  In r csv -> SYMBOL r = Num nan ->
  SYMBOL (fillna_row r) = Num (of_Z 0) /\
  exists g,
    1 <= g <= total_groups (stock_mcap_df csv) /\
    In (fillna_row r) (df_group (stock_mcap_df csv) g) /\
    script Pad csv g download show_table filter_option
    = ([st_group_table (df_group (stock_mcap_df csv) g)], Crashed TypeError).
Proof.
  intros Hr Hs.
  assert (E : SYMBOL (fillna_row r) = Num (of_Z 0)).
  { unfold fillna_row. cbn [SYMBOL]. now rewrite Hs. }
  split; [exact E |].
  assert (Hin : In (fillna_row r) (stock_mcap_df csv)).
  { apply (Permutation_in _ (stock_mcap_df_perm csv)). now apply in_map. }
  rewrite <- (df_groups_concat (stock_mcap_df csv)) in Hin.
  apply in_concat in Hin as (piece & Hp & Hin).
  apply in_map_iff in Hp as (g & <- & Hg). apply in_seq in Hg.
  exists g. split; [lia |]. split; [exact Hin |].
  unfold script. now rewrite (symbols_of_number _ _ _ Hin E).
Qed.

Lemma missing_symbol_raises_witness :
  script Pad [mkRow (Str "A") (of_Z 5 : float); mkRow (Num nan) (of_Z 7)] 1
         (fun _ => mkDataFrame [] []) true "All stocks"
  = ([st_group_table [mkRow (Num (of_Z 0)) (of_Z 7); mkRow (Str "A") (of_Z 5)]],
     Crashed TypeError).
Proof.
  destruct (missing_symbol_raises
    [mkRow (Str "A") (of_Z 5 : float); mkRow (Num nan) (of_Z 7)]
    (fun _ => mkDataFrame [] []) true "All stocks" (mkRow (Num nan) (of_Z 7)))
    as (_ & g & _ & _ & _).
  - right. now left.
  - reflexivity.
  - reflexivity.
Defined.



(** ** Further properties: the shape of the frames (lines 76-92) *)

Section ShapeFacts.
Context {num : Type} {N : Number num} {S : Sqrt num}.

Lemma length_shift (s : Series num) : List.length (shift s) = List.length s.
Proof.
  destruct s as [| a s]; trivial. unfold shift.
  rewrite removelast_firstn_len. cbn [List.length].
  rewrite length_firstn. cbn [List.length Nat.pred]. lia.
Qed.

Lemma length_zip_with (f : num -> num -> num) (a b : Series num) :
  List.length (zip_with f a b) = Nat.min (List.length a) (List.length b).
Proof.
  unfold zip_with. now rewrite length_map, length_combine.
Qed.

Lemma length_ffill (p : num) (s : Series num) :
  List.length (ffill_from p s) = List.length s.
Proof.
  revert p. induction s as [| a s IH]; intros p; trivial.
  cbn [ffill_from]. destruct (is_nan a); cbn [List.length]; now rewrite IH.
Qed.

Lemma length_daily_returns (fm : fill_method) (s : Series num) :
  List.length (daily_returns fm s) = List.length s.
Proof.
  unfold daily_returns, fillna, pct_change.
  rewrite length_map, length_zip_with, length_shift.
  destruct fm; cbn [fill_missing]; unfold ffill; rewrite ?length_ffill; lia.
Qed.

Lemma length_accumulate (acc : num) (s : Series num) :
  List.length (accumulate acc s) = List.length s.
Proof.
  revert acc. induction s as [| a s IH]; intros acc; trivial.
  cbn [accumulate List.length]. now rewrite IH.
Qed.

Lemma length_np_cumprod (s : Series num) :
  List.length (np_cumprod s) = List.length s.
Proof.
  destruct s as [| a s]; trivial. cbn [np_cumprod List.length].
  now rewrite length_accumulate.
Qed.

Lemma length_cumulative_pct (r : Series num) :
  List.length (cumulative_pct r) = List.length r.
Proof.
  unfold cumulative_pct, cumprod.
  rewrite !length_map, length_combine, length_np_cumprod, !length_map. lia.
Qed.

Lemma aligned_map_frame (f : Series num -> Series num) (df : DataFrame num) :
  (forall s, List.length (f s) = List.length s) ->
  aligned df -> aligned (map_frame f df).
Proof.
  intros Hf Ha. unfold aligned, map_frame in *. cbn [index columns].
  apply Forall_map. eapply Forall_impl; [| exact Ha].
  intros c Hc. cbn [snd]. now rewrite Hf.
Qed.

Lemma index_setitem (df : DataFrame num) (label : string) (s : Series num) :
  index (setitem df label s) = index df.
Proof.
  unfold setitem. now destruct (mem label (names df)).
Qed.

Lemma aligned_setitem (df : DataFrame num) (label : string) (s : Series num) :
  aligned df -> List.length s = List.length (index df) ->
  aligned (setitem df label s).
Proof.
  intros Ha Hs. unfold aligned in *. rewrite index_setitem.
  unfold setitem. destruct (mem label (names df)); cbn [columns].
  - induction Ha as [| c cs Hc Hcs IH]; cbn [replace_col]; [constructor |].
    unfold Series in *.
    destruct (String.eqb (fst c) label); constructor; trivial.
  - apply Forall_app. split; trivial. now constructor.
Qed.

Lemma index_drop (labels : list string) (df d : DataFrame num) :
  drop labels df = Ok d -> index d = index df.
Proof.
  unfold drop. destruct (find _ labels); [discriminate |].
  intros H. inversion H. reflexivity.
Qed.

(** Annotating keeps the index and leaves every column, old and new, with
    one cell per index entry. *)
Lemma annotate_aligned (cum ann : DataFrame num) :
  aligned cum -> annotate cum = Ok ann ->
  aligned ann /\ index ann = index cum.
Proof.
  intros Ha. unfold annotate.
  destruct (drop ["mean_pct_chg"] _) as [d1 |] eqn:E1; [| discriminate].
  cbn [result_bind].
  destruct (drop ["mean_pct_chg"; "median_pct_change"] _) as [d2 |] eqn:E2;
    [| discriminate].
  cbn [result_bind]. rewrite getitem_setitem_same. cbn [result_bind].
  intros H. inversion H. clear H.
  apply index_drop in E1. apply index_drop in E2.
  rewrite !index_setitem in *.
  split; [| reflexivity].
  repeat apply aligned_setitem; trivial;
    rewrite ?index_setitem; unfold mean_axis1, median_axis1, std_axis1, rows;
    rewrite ?length_map, ?length_seq; congruence.
Qed.

Lemma column_length (df : DataFrame num) (label : string) :
  aligned df -> In label (names df) ->
  List.length (column df label) = List.length (index df).
Proof.
  intros Ha Hl. unfold column, getitem.
  destruct (find _ (columns df)) as [c |] eqn:F.
  - apply find_some in F as [Hc _]. unfold aligned in Ha.
    rewrite Forall_forall in Ha. now apply Ha.
  - exfalso. apply in_map_iff in Hl as [c [Hc1 Hc2]].
    apply (find_none _ _ F) in Hc2. rewrite Hc1, String.eqb_refl in Hc2.
    discriminate.
Qed.

Lemma fillna_present (v : num) (s : Series num) :
  is_nan v = false -> Forall (fun x => is_nan x = false) (fillna v s).
Proof.
  intros Hv. unfold fillna. apply Forall_map, Forall_forall. intros x _.
  destruct (is_nan x) eqn:E; trivial.
Qed.

End ShapeFacts.

(** After [fillna(0)] the daily-return frame has no missing cell. *)
Lemma returns_have_no_missing_cell (fm : fill_method) (price_df : DataFrame float) :
  Forall (fun c => Forall (fun v => is_nan v = false) (snd c))
         (columns (pct_df fm price_df)).
Proof.
  unfold pct_df, map_frame. cbn [columns].
  apply Forall_map, Forall_forall. intros c _. cbn [snd].
  unfold daily_returns. apply fillna_present. apply zero_not_nan.
Qed.

(** X8. The frames keep their shape: the daily returns have no missing
    cell, whatever the prices; the cumulative returns have the index, the
    column labels and the alignment of the prices; and the annotated frame
    keeps the index with every column, the four statistics included,
    holding one cell per date. *)
Theorem frames_keep_shape (fm : fill_method) (price_df : DataFrame float) :
  aligned price_df ->
  Forall (fun c => Forall (fun v => is_nan v = false) (snd c))
         (columns (pct_df fm price_df)) /\
  aligned (total_pct_df fm price_df) /\
  index (total_pct_df fm price_df) = index price_df /\
  names (total_pct_df fm price_df) = names price_df /\
  exists ann,
    annotate (total_pct_df fm price_df) = Ok ann /\
    aligned ann /\ index ann = index price_df.
Proof.
  intros Ha.
  assert (Hc : aligned (total_pct_df fm price_df)).
  { unfold total_pct_df, pct_df.
    apply aligned_map_frame; [apply length_cumulative_pct |].
    apply aligned_map_frame; [apply length_daily_returns | exact Ha]. }
  split; [apply returns_have_no_missing_cell |].
  repeat split; trivial.
  - apply names_total_pct_df.
  - destruct (annotate_std_2std (total_pct_df fm price_df)) as (ann & _ & E & _).
    exists ann. split; [exact E |].
    destruct (annotate_aligned _ ann Hc E) as [H1 H2]. split; trivial.
Qed.

Lemma frames_keep_shape_witness :
  aligned (total_pct_df Pad
    (mkDataFrame [1; 2]%Z [("A.NS", [of_Z 100; of_Z 110 : float])])).
Proof.
  destruct (frames_keep_shape Pad
    (mkDataFrame [1; 2]%Z [("A.NS", [of_Z 100; of_Z 110 : float])]))
    as (_ & H & _).
  - repeat constructor.
  - exact H.
Defined.

(** X10. Every trace of the chart, ticker or reference line, is drawn over
    the dates of the price frame and carries one value per date; the layout
    is set, with the radio button's text in the title. *)
Theorem chart_traces_follow_dates (fm : fill_method) (price_df : DataFrame float)
  (filter_option : string) :
  empty price_df = false -> tickers_only price_df = true -> aligned price_df ->
  exists ann fig,
    annotate (total_pct_df fm price_df) = Ok ann /\
    build_figure ann filter_option = Ok fig /\
    layout fig = Some (chart_layout filter_option) /\
    Forall (fun t => x t = index price_df /\
                     List.length (y t) = List.length (index price_df))
           (data fig).
Proof.
  intros Hne T Ha.
  pose proof (tickers_only_total_pct_df fm price_df T) as T'.
  assert (Hne' : empty (total_pct_df fm price_df) = false)
    by now rewrite empty_total_pct_df.
  assert (Hc : aligned (total_pct_df fm price_df)).
  { unfold total_pct_df, pct_df.
    apply aligned_map_frame; [apply length_cumulative_pct |].
    apply aligned_map_frame; [apply length_daily_returns | exact Ha]. }
  set (cum := total_pct_df fm price_df) in *.
  pose proof (annotate_tickers_only cum T') as E.
  destruct (annotate_aligned cum _ Hc E) as [Hann Hidx].
  assert (Hidx' : index (annotated cum) = index price_df) by reflexivity.
  exists (annotated cum). eexists.
  split; [exact E |]. split; [now apply build_figure_annotated |].
  split; [reflexivity |]. cbn [data].
  assert (Hcol : forall label, In label (names (annotated cum)) ->
            List.length (column (annotated cum) label)
            = List.length (index price_df)).
  { intros label Hl. rewrite <- Hidx'. now apply column_length. }
  apply Forall_app. split.
  - apply Forall_map, Forall_forall. intros c Hc'. cbn [stock_scatter x y].
    split; [exact Hidx' |]. apply Hcol.
    apply filter_In in Hc' as [Hc' _].
    rewrite names_annotated. apply in_or_app. now left.
  - unfold reference_lines.
    repeat (constructor; [cbn [x y]; split; [exact Hidx' |];
                          apply Hcol; rewrite names_annotated;
                          apply in_or_app; right; simpl; auto |]).
    constructor.
Qed.

Lemma chart_traces_follow_dates_witness :
  exists (ann : DataFrame float) fig,
    build_figure ann "All stocks" = Ok fig /\
    Forall (fun t => x t = [1; 2]%Z /\ List.length (y t) = 2) (data fig).
Proof.
  destruct (chart_traces_follow_dates Pad
    (mkDataFrame [1; 2]%Z [("A.NS", [of_Z 100; of_Z 110 : float])]) "All stocks")
    as (ann & fig & _ & Hf & _ & Ht).
  - reflexivity.
  - reflexivity.
  - repeat constructor.
  - exists ann, fig. split; [exact Hf | exact Ht].
Defined.

(** ** Further properties: the table (lines 90-92) *)

Section TailFacts.
Context {num : Type} {N : Number num}.

Lemma length_tail_list {A : Type} (n : nat) (l : list A) :
  List.length (tail_list n l) = Nat.min n (List.length l).
Proof.
  unfold tail_list. rewrite length_skipn. lia.
Qed.

Lemma last_skipn {A : Type} (k : nat) (l : list A) (d : A) :
  k < List.length l -> last (skipn k l) d = last l d.
Proof.
  revert k. induction l as [| a l IH]; intros k Hk; [simpl in Hk; lia |].
  destruct k as [| k]; trivial.
  cbn [skipn]. simpl in Hk. rewrite IH by lia.
  destruct l; [simpl in Hk; lia | reflexivity].
Qed.

Lemma last_tail_list {A : Type} (n : nat) (l : list A) (d : A) :
  0 < n -> last (tail_list n l) d = last l d.
Proof.
  intros Hn. unfold tail_list. destruct l as [| a l]; trivial.
  apply last_skipn. cbn [List.length]. lia.
Qed.

Lemma column_tail (n : nat) (df : DataFrame num) (label : string) :
  column (tail n df) label = tail_list n (column df label).
Proof.
  unfold column, getitem, tail. cbn [columns].
  induction (columns df) as [| c cs IH]; trivial.
  cbn [map find fst snd]. unfold Series in *.
  destruct (String.eqb (fst c) label); trivial.
Qed.

End TailFacts.

(** X11. The table shown when the box is ticked is the last 50 rows of the
    annotated frame (all of them when there are fewer): the same columns,
    each cut to those rows, and its last row is the row the filter is
    evaluated on. *)
Theorem table_is_last_rows (n : nat) (df : DataFrame float) :
  aligned df ->
  aligned (tail n df) /\
  List.length (index (tail n df)) = Nat.min n (List.length (index df)) /\
  names (tail n df) = names df /\
  (0 < n -> forall label, last_value (tail n df) label = last_value df label).
Proof.
  intros Ha. repeat split.
  - unfold aligned, tail in *. cbn [index columns]. apply Forall_map.
    eapply Forall_impl; [| exact Ha]. intros c Hc. cbn [snd].
    now rewrite !length_tail_list, Hc.
  - apply length_tail_list.
  - unfold names, tail. cbn [columns]. rewrite map_map. reflexivity.
  - intros Hn label. unfold last_value. rewrite column_tail.
    now apply last_tail_list.
Qed.

Lemma table_is_last_rows_witness :
  List.length (index (tail 50
    (mkDataFrame [1; 2]%Z [("A.NS", [of_Z 100; of_Z 110 : float])]))) = 2.
Proof.
  apply (table_is_last_rows 50
    (mkDataFrame [1; 2]%Z [("A.NS", [of_Z 100; of_Z 110 : float])])).
  repeat constructor.
Defined.

(** ** Further properties: returns and compounding (lines 76-77) *)

Section CompoundingFacts.
Context {num : Type} {N : Number num} {L : NanLaws N}.

Lemma ffill_all_missing (n : nat) : ffill_from nan (repeat nan n) = repeat nan n.
Proof.
  induction n as [| n IH]; trivial.
  cbn [repeat ffill_from]. now rewrite is_nan_nan, IH.
Qed.

Lemma adjacent_all_missing (n : nat) :
  adjacent pct nan (repeat nan n) = repeat nan n.
Proof.
  induction n as [| n IH]; trivial.
  cbn [repeat adjacent]. rewrite IH. f_equal.
  unfold pct. now rewrite div_nan_l, sub_nan_l.
Qed.

(** A column with no price at all has a daily return of 0 on every date. *)
Lemma daily_returns_all_missing (fm : fill_method) (n : nat) :
  daily_returns fm (repeat nan n) = repeat (of_Z 0) n.
Proof.
  destruct n as [| n]; [now destruct fm |].
  rewrite (daily_returns_cons fm _ nan (repeat nan n)).
  - rewrite adjacent_all_missing, map_repeat. cbn [repeat]. do 2 f_equal.
    unfold fill0. now rewrite is_nan_nan.
  - destruct fm; cbn [fill_missing]; trivial. apply (ffill_all_missing (S n)).
Qed.

Lemma combine_repeat {A B : Type} (a : A) (b : B) (n : nat) :
  combine (repeat a n) (repeat b n) = repeat (a, b) n.
Proof.
  induction n as [| n IH]; trivial. cbn [repeat combine]. now rewrite IH.
Qed.

(** With no missing cell the running product is NumPy's, cell for cell. *)
Lemma cumprod_present (s : Series num) :
  Forall (fun v => is_nan v = false) s -> cumprod s = np_cumprod s.
Proof.
  intros H. unfold cumprod.
  replace (map (fun v => if is_nan v then of_Z 1 else v) s) with s.
  2:{ induction H as [| v s Hv Hs IH]; trivial. cbn [map]. now rewrite Hv, <- IH. }
  assert (G : forall (l : Series num),
            map (fun p => if is_nan (fst p) then nan else snd p) (combine s l)
            = firstn (List.length s) l).
  { induction H as [| v s Hv Hs IH]; intros l; trivial.
    destruct l as [| w l]; trivial.
    cbn [combine map fst snd List.length firstn]. now rewrite Hv, IH. }
  rewrite G. apply firstn_all2. now rewrite length_np_cumprod.
Qed.

End CompoundingFacts.

Lemma float_accumulate_ones (n : nat) :
  accumulate (of_Z 1 : float) (repeat (of_Z 1) n) = repeat (of_Z 1) n.
Proof.
  induction n as [| n IH]; trivial.
  cbn [repeat accumulate].
  change (mul (of_Z 1 : float) (of_Z 1)) with (of_Z 1 : float).
  now rewrite IH.
Qed.

(** X12. A ticker without a single price in the range is no error: its
    cumulative return is 0.0 on every date, a flat line that enters the
    statistics like any other column. *)
Theorem missing_ticker_is_flat (fm : fill_method) (s : Series float) :
  Forall (fun v => is_nan v = true) s ->
  cumulative_pct (daily_returns fm s) = repeat (of_Z 0) (List.length s).
Proof.
  intros H.
  assert (E : s = repeat nan (List.length s)).
  { apply Forall_eq_repeat. eapply Forall_impl; [| exact H].
    intros v Hv. symmetry. now apply is_nan_eq. }
  rewrite E at 1. rewrite daily_returns_all_missing.
  generalize (List.length s) as n. intros n.
  unfold cumulative_pct. rewrite map_repeat.
  change (add (of_Z 1 : float) (of_Z 0)) with (of_Z 1 : float).
  rewrite cumprod_present by (apply Forall_forall; intros v Hv;
                              apply repeat_spec in Hv; now subst).
  replace (np_cumprod (repeat (of_Z 1 : float) n)) with (repeat (of_Z 1 : float) n).
  - now rewrite map_repeat.
  - destruct n as [| n]; trivial. cbn [repeat np_cumprod].
    now rewrite float_accumulate_ones.
Qed.

Lemma missing_ticker_is_flat_witness :
  cumulative_pct (daily_returns Pad [nan; nan; nan : float])
  = [of_Z 0; of_Z 0; of_Z 0].
Proof.
  apply (missing_ticker_is_flat Pad [nan; nan; nan]).
  repeat constructor.
Defined.

Section LeadingMissing.
Context {num : Type} {N : Number num} {L : NanLaws N}.

Lemma daily_returns_fill (fm : fill_method) (s : Series num) :
  daily_returns fm s = daily_returns NoFill (fill_missing fm s).
Proof. reflexivity. Qed.

Lemma fill_leading_missing (fm : fill_method) (k : nat) (p0 : num) (rest : Series num) :
  is_nan p0 = false ->
  fill_missing fm ((repeat nan k ++ p0 :: rest)%list)
  = (repeat nan k
     ++ p0 :: match fm with Pad => ffill_from p0 rest | NoFill => rest end)%list.
Proof.
  intros H0. destruct fm; cbn [fill_missing]; trivial. unfold ffill.
  induction k as [| k IH]; cbn [repeat app ffill_from].
  - now rewrite H0.
  - now rewrite is_nan_nan, IH.
Qed.

Lemma returns_after_missing (l : Series num) :
  l <> [] -> map fill0 (adjacent pct nan l) = daily_returns NoFill l.
Proof.
  destruct l as [| b l]; [congruence |]. intros _.
  rewrite (daily_returns_cons NoFill (b :: l) b l eq_refl).
  cbn [adjacent map]. f_equal.
  unfold fill0, pct. now rewrite div_nan_r, sub_nan_l, is_nan_nan.
Qed.

(** Leading missing prices give leading returns of 0, and the first price
    that is present starts the column afresh. *)
Lemma daily_returns_leading_missing (k : nat) (l : Series num) :
  l <> [] ->
  daily_returns NoFill ((repeat nan k ++ l)%list)
  = (repeat (of_Z 0) k ++ daily_returns NoFill l)%list.
Proof.
  intros Hl. induction k as [| k IH]; trivial.
  cbn [repeat app].
  rewrite (daily_returns_cons NoFill _ nan ((repeat nan k ++ l)%list) eq_refl).
  rewrite returns_after_missing, IH; trivial.
  destruct k; [exact Hl | discriminate].
Qed.

End LeadingMissing.

Lemma nth_ffill_missing {num : Type} {N : Number num} (p : num) (s : Series num)
  (t : nat) :
  t < List.length s -> is_nan (nth t s nan) = true ->
  nth t (ffill_from p s) nan = nth t (p :: ffill_from p s) nan.
Proof.
  revert p t. induction s as [| v s IH]; intros p t Ht Hn; simpl in Ht; [lia |].
  destruct t as [| t].
  - cbn [nth] in Hn. cbn [ffill_from]. now rewrite Hn.
  - cbn [nth] in Hn. cbn [ffill_from].
    destruct (is_nan v); cbn [nth]; apply IH; trivial; lia.
Qed.

Lemma nth_accumulate {num : Type} {N : Number num} (acc : num) (l : Series num)
  (t : nat) (d : num) :
  t < List.length l ->
  nth t (accumulate acc l) d = mul (nth t (acc :: accumulate acc l) d) (nth t l d).
Proof.
  revert acc t. induction l as [| v l IH]; intros acc t Ht; simpl in Ht; [lia |].
  destruct t as [| t]; trivial.
  cbn [accumulate nth]. rewrite IH by lia. reflexivity.
Qed.

(** Each cell of NumPy's running product is the cell before it times the
    factor of its row. *)
Lemma nth_np_cumprod {num : Type} {N : Number num} (l : Series num) (t : nat)
  (d : num) :
  S t < List.length l ->
  nth (S t) (np_cumprod l) d = mul (nth t (np_cumprod l) d) (nth (S t) l d).
Proof.
  destruct l as [| v l]; simpl; [lia |]. intros Ht.
  apply nth_accumulate. lia.
Qed.

(** The factors [1 + return] of the page are never NaN, so [skipna] has
    nothing to skip and the running product is NumPy's. *)
Lemma float_cumulative_pct (fm : fill_method) (s : Series float) :
  cumulative_pct (daily_returns fm s)
  = map (fun c => mul (sub c (of_Z 1)) (of_Z 100))
        (np_cumprod (map (fun r => add (of_Z 1) r) (daily_returns fm s))).
Proof.
  unfold cumulative_pct. rewrite cumprod_present; trivial.
  apply Forall_map. unfold daily_returns.
  eapply Forall_impl; [| apply fillna_present; reflexivity].
  intros r Hr. now apply float_one_plus_not_nan.
Qed.

Lemma float_cumprod_from_ones (k : nat) (l : Series float) :
  map (fun p => if is_nan (fst p) then nan else snd p)
      (combine (repeat (of_Z 1) k ++ l)%list
         (accumulate (of_Z 1)
            (map (fun v => if is_nan v then of_Z 1 else v)
                 (repeat (of_Z 1) k ++ l)%list)))
  = (repeat (of_Z 1) k
     ++ map (fun p => if is_nan (fst p) then nan else snd p)
          (combine l (accumulate (of_Z 1)
                        (map (fun v => if is_nan v then of_Z 1 else v) l))))%list.
Proof.
  induction k as [| k IH]; trivial.
  cbn [repeat app map accumulate combine fst snd].
  change (is_nan (of_Z 1 : float)) with false. cbv iota.
  change (mul (of_Z 1 : float) (of_Z 1)) with (of_Z 1 : float).
  now rewrite IH.
Qed.

(** Leading returns of 0 compound to leading cumulative returns of 0, and
    leave what follows as it is. *)
Lemma float_leading_zeros (k : nat) (r : Series float) :
  cumulative_pct ((repeat (of_Z 0) k ++ of_Z 0 :: r)%list)
  = (repeat (of_Z 0) k ++ cumulative_pct (of_Z 0 :: r))%list.
Proof.
  destruct k as [| k]; trivial.
  unfold cumulative_pct, cumprod.
  rewrite map_app, map_repeat. cbn [repeat app map np_cumprod combine fst snd].
  change (add (of_Z 1 : float) (of_Z 0)) with (of_Z 1 : float).
  change (is_nan (of_Z 1 : float)) with false. cbv iota.
  pose proof (float_cumprod_from_ones k
                (of_Z 1 :: map (fun x => add (of_Z 1) x) r)) as H.
  cbn [map] in H. change (is_nan (of_Z 1 : float)) with false in H.
  cbv iota in H. rewrite H. clear H.
  rewrite map_app, map_repeat. cbn [accumulate combine map fst snd].
  change (is_nan (of_Z 1 : float)) with false. cbv iota.
  change (mul (of_Z 1 : float) (of_Z 1)) with (of_Z 1 : float).
  change (mul (sub (of_Z 1 : float) (of_Z 1)) (of_Z 100)) with (of_Z 0 : float).
  reflexivity.
Qed.

(** X13. A ticker listed late is measured from its first price: for a
    column of [k] missing prices followed by a price that is present, the
    cumulative return is 0.0 on the first [k] dates, and from then on it is
    what the column without the leading gap gives, cell for cell. *)
Theorem late_listing_starts_at_first_price (fm : fill_method) (k : nat)
  (p0 : float) (s : Series float) :
  is_nan p0 = false ->
  cumulative_pct (daily_returns fm ((repeat nan k ++ p0 :: s)%list))
  = (repeat (of_Z 0) k ++ cumulative_pct (daily_returns fm (p0 :: s)))%list.
Proof.
  intros H0.
  rewrite (daily_returns_fill fm (p0 :: s)).
  pose proof (fill_leading_missing fm 0 p0 s H0) as F0. cbn [repeat app] in F0.
  rewrite F0.
  rewrite daily_returns_fill, fill_leading_missing by exact H0.
  rewrite daily_returns_leading_missing by discriminate.
  rewrite (daily_returns_cons NoFill (p0 :: _) p0 _ eq_refl).
  apply float_leading_zeros.
Qed.

Lemma late_listing_starts_at_first_price_witness :
  cumulative_pct (daily_returns Pad [nan; nan; of_Z 100; of_Z 110 : float])
  = ([of_Z 0; of_Z 0]
      ++ cumulative_pct (daily_returns Pad [of_Z 100; of_Z 110 : float]))%list.
Proof.
  apply (late_listing_starts_at_first_price Pad 2 (of_Z 100) [of_Z 110]).
  reflexivity.
Defined.

(** The daily return of a date without a price is 0. *)
Lemma missing_price_return (fm : fill_method) (s : Series float) (t : nat) :
  S t < List.length s -> is_nan (nth (S t) s nan) = true ->
  nth (S t) (daily_returns fm s) nan = of_Z 0.
Proof.
  intros Ht Hn. rewrite daily_return_nth by exact Ht.
  destruct fm; cbn [fill_missing].
  - unfold ffill. rewrite nth_ffill_missing by assumption.
    cbn [nth]. apply float_pct_self.
  - apply is_nan_eq in Hn. rewrite Hn. unfold pct.
    now rewrite div_nan_l, sub_nan_l.
Qed.

(** X15. A date without a price draws a flat step: whether pandas fills
    the gap forward or not, the daily return of that date is 0 and its
    cumulative return repeats that of the date before, bit for bit. *)
Theorem missing_price_repeats_return (fm : fill_method) (s : Series float)
  (t : nat) :
  S t < List.length s -> is_nan (nth (S t) s nan) = true ->
  nth (S t) (daily_returns fm s) nan = of_Z 0 /\
  nth (S t) (cumulative_pct (daily_returns fm s)) nan
  = nth t (cumulative_pct (daily_returns fm s)) nan.
Proof.
  intros Ht Hn.
  pose proof (missing_price_return fm s t Ht Hn) as R0.
  split; [exact R0 |].
  rewrite float_cumulative_pct.
  set (g := fun c : float => mul (sub c (of_Z 1)) (of_Z 100)).
  set (X := map (fun r => add (of_Z 1) r) (daily_returns fm s)).
  assert (HX : List.length X = List.length s)
    by (unfold X; now rewrite length_map, length_daily_returns).
  assert (HC : List.length (np_cumprod X) = List.length s)
    by now rewrite length_np_cumprod.
  rewrite (nth_indep (n := S t) (map g (np_cumprod X)) nan (g nan))
    by (rewrite length_map; lia).
  rewrite (nth_indep (n := t) (map g (np_cumprod X)) nan (g nan))
    by (rewrite length_map; lia).
  rewrite !map_nth. f_equal.
  rewrite nth_np_cumprod by lia.
  unfold X at 2.
  rewrite (nth_indep (n := S t) (map _ (daily_returns fm s)) nan
             (add (of_Z 1) nan))
    by (rewrite length_map, length_daily_returns; lia).
  rewrite (map_nth (fun r => add (of_Z 1) r)), R0.
  change (add (of_Z 1 : float) (of_Z 0)) with (of_Z 1 : float).
  apply float_mul_one_r.
Qed.

Lemma missing_price_repeats_return_witness :
  nth 1 (daily_returns NoFill [of_Z 100; nan; of_Z 110 : float]) nan = of_Z 0 /\
  nth 1 (cumulative_pct (daily_returns NoFill [of_Z 100; nan; of_Z 110 : float])) nan
  = nth 0 (cumulative_pct (daily_returns NoFill [of_Z 100; nan; of_Z 110])) nan.
Proof.
  apply (missing_price_repeats_return NoFill [of_Z 100; nan; of_Z 110] 0).
  - simpl. lia.
  - reflexivity.
Defined.

(** ** Further properties: a group of one ticker (lines 84-88, 128-131) *)

Lemma last_all {A : Type} (d : A) (l : list A) :
  Forall (eq d) l -> last l d = d.
Proof.
  induction 1 as [| a l Ha Hl IH]; trivial.
  subst a. destruct l; trivial.
Qed.

Lemma std_single_column {num : Type} {N : Number num} {S : Sqrt num}
  {L : NanLaws N} {SL : SqrtLaws N S} (cum : DataFrame num) :
  List.length (columns cum) = 1 -> Forall (eq nan) (std_axis1 cum).
Proof.
  intros H1. unfold std_axis1, rows. rewrite map_map.
  apply Forall_map, Forall_forall. intros i _.
  assert (Hr : List.length (row cum i) = 1) by (unfold row; now rewrite length_map).
  destruct (row cum i) as [| v [| w r]]; try discriminate.
  symmetry. apply nanstd_single.
Qed.

(** X14. With a single ticker in the frame the standard deviation is NaN
    on every date, and so is its double; "Above std" and "Above 2 std"
    then draw no ticker at all, only the four reference lines. *)
Theorem single_ticker_std_filters (fm : fill_method) (price_df : DataFrame float)
  (mode : FilterSelection) :
  empty price_df = false -> tickers_only price_df = true ->
  List.length (columns price_df) = 1 ->
  mode = AboveStd \/ mode = Above2Std ->
  exists ann fig,
    annotate (total_pct_df fm price_df) = Ok ann /\
    last_value ann "std" = nan /\ last_value ann "2std" = nan /\
    build_figure ann (radio_label mode) = Ok fig /\
    shown_stocks fig = [] /\
    map (@name float) (data fig) = ["Mean"; "Median"; "Std Dev"; "2 Std Dev"].
Proof.
  intros Hne T H1 Hmode.
  pose proof (tickers_only_total_pct_df fm price_df T) as T'.
  assert (Hne' : empty (total_pct_df fm price_df) = false)
    by now rewrite empty_total_pct_df.
  set (cum := total_pct_df fm price_df) in *.
  assert (Hcols : List.length (columns cum) = 1).
  { unfold cum, total_pct_df, pct_df, map_frame. cbn [columns].
    now rewrite !length_map. }
  destruct (getitem_annotated cum T') as (_ & _ & Gs & G2).
  pose proof (std_single_column cum Hcols) as Hnan.
  assert (Ls : last_value (annotated cum) "std" = nan).
  { unfold last_value, column. rewrite Gs. now apply last_all. }
  assert (L2 : last_value (annotated cum) "2std" = nan).
  { unfold last_value, column. rewrite G2. apply last_all.
    apply Forall_map. eapply Forall_impl; [| exact Hnan].
    intros v <-. reflexivity. }
  assert (Hsel : filter (above (annotated cum) (radio_label mode)) (names cum) = []).
  { induction (names cum) as [| c cs IH]; trivial.
    cbn [filter]. rewrite IH.
    replace (above (annotated cum) (radio_label mode) c) with false; trivial.
    destruct Hmode as [-> | ->].
    - change (above (annotated cum) (radio_label AboveStd) c)
        with (gtb (last_value (annotated cum) c) (last_value (annotated cum) "std")).
      rewrite Ls. unfold gtb. symmetry. apply float_ltb_nan_l.
    - change (above (annotated cum) (radio_label Above2Std) c)
        with (gtb (last_value (annotated cum) c) (last_value (annotated cum) "2std")).
      rewrite L2. unfold gtb. symmetry. apply float_ltb_nan_l. }
  exists (annotated cum). eexists.
  split; [now apply annotate_tickers_only |].
  split; [exact Ls |]. split; [exact L2 |].
  split; [now apply build_figure_annotated |].
  rewrite Hsel. split; reflexivity.
Qed.

Lemma single_ticker_std_filters_witness :
  exists (ann : DataFrame float) fig,
    build_figure ann (radio_label AboveStd) = Ok fig /\ shown_stocks fig = [].
Proof.
  destruct (single_ticker_std_filters Pad
    (mkDataFrame [1; 2]%Z [("A.NS", [of_Z 100; of_Z 110 : float])]) AboveStd)
    as (ann & fig & _ & _ & _ & Hf & Hs & _).
  - reflexivity.
  - reflexivity.
  - reflexivity.
  - now left.
  - exists ann, fig. split; assumption.
Defined.

(** ** Further properties: the default of the filter (lines 122-133) *)

(** X9. The filter chain starts from "show" and only the four "Above ..."
    texts can switch a ticker off: with any other text of the radio button
    every ticker column is drawn, in column order, whatever its values. *)
Theorem other_filter_text_draws_all (fm : fill_method) (price_df : DataFrame float)
  (filter_option : string) :
  empty price_df = false -> tickers_only price_df = true ->
  ~ In filter_option
       ["Above mean (last value)"; "Above median (last value)";
        "Above std (last value)"; "Above 2 std (last value)"] ->
  exists ann fig,
    annotate (total_pct_df fm price_df) = Ok ann /\
    build_figure ann filter_option = Ok fig /\
    shown_stocks fig = names price_df.
Proof.
  intros Hne T Hopt.
  pose proof (tickers_only_total_pct_df fm price_df T) as T'.
  assert (Hne' : empty (total_pct_df fm price_df) = false)
    by now rewrite empty_total_pct_df.
  set (cum := total_pct_df fm price_df) in *.
  exists (annotated cum). eexists.
  split; [now apply annotate_tickers_only |].
  split; [now apply build_figure_annotated |].
  rewrite shown_stocks_closed.
  assert (E : forall c, above (annotated cum) filter_option c = true).
  { intros c. unfold above.
    repeat match goal with
    | |- context [String.eqb filter_option ?l] =>
        destruct (String.eqb_spec filter_option l) as [-> | _];
        [exfalso; apply Hopt; simpl; tauto |]
    end. reflexivity. }
  unfold cum at 2. rewrite names_total_pct_df.
  induction (names price_df) as [| c cs IH]; trivial.
  cbn [filter]. now rewrite E, IH.
Qed.

Lemma other_filter_text_draws_all_witness :
  exists (ann : DataFrame float) fig,
    build_figure ann "All stocks" = Ok fig /\ shown_stocks fig = ["A.NS"; "B.NS"].
Proof.
  destruct (other_filter_text_draws_all Pad
    (mkDataFrame [1; 2]%Z
       [("A.NS", [of_Z 100; of_Z 110 : float]); ("B.NS", [of_Z 50; of_Z 45])])
    "All stocks") as (ann & fig & _ & Hf & Hs).
  - reflexivity.
  - reflexivity.
  - simpl. intros [H | [H | [H | [H | []]]]]; discriminate.
  - exists ann, fig. split; [exact Hf | exact Hs].
Defined.

(** ** Further properties: no exception from the prices on (lines 69-185) *)

Section NoException.
Context {num : Type} {N : Number num} {S : Sqrt num}.

(** Whatever the labels of the frame, annotating leaves the four statistic
    labels among the columns and the index as it was. *)
Lemma annotate_labels (cum ann : DataFrame num) :
  annotate cum = Ok ann ->
  (forall l, In l stats_cols -> In l (names ann)) /\ index ann = index cum.
Proof.
  unfold annotate.
  destruct (drop ["mean_pct_chg"] _) as [d1 |]; [| discriminate].
  cbn [result_bind].
  destruct (drop ["mean_pct_chg"; "median_pct_change"] _) as [d2 |];
    [| discriminate].
  cbn [result_bind]. rewrite getitem_setitem_same. cbn [result_bind].
  intros H. inversion H. clear H. split.
  - intros l Hl. rewrite !In_names_setitem.
    simpl in Hl. destruct Hl as [<- | [<- | [<- | [<- | []]]]]; tauto.
  - now rewrite !index_setitem.
Qed.

Lemma build_figure_total (df : DataFrame num) (filter_option : string) :
  (forall l, In l stats_cols -> In l (names df)) ->
  List.length (index df) <> 0 ->
  exists fig, build_figure df filter_option = Ok fig.
Proof.
  intros Hs Hi. unfold build_figure.
  assert (Hne : empty df = false).
  { unfold empty. apply orb_false_intro; apply Nat.eqb_neq; trivial.
    assert (Hin : In "std" (names df)) by (apply Hs; simpl; auto).
    unfold names in Hin. destruct (columns df); [contradiction | discriminate]. }
  rewrite iloc_last_rows by exact Hne. cbn [result_bind].
  rewrite plot_stocks_closed; trivial.
  - cbn [result_bind]. rewrite plot_reference_lines_closed by exact Hs.
    eexists. reflexivity.
  - intros c Hc. unfold stock_cols in Hc. now apply filter_In in Hc as [Hc _].
Qed.

Lemma dashboard_ending (fm : fill_method) (price_df : DataFrame num)
  (show_table : bool) (filter_option : string) :
  snd (dashboard fm price_df show_table filter_option)
  = if empty price_df then Stopped else Finished.
Proof.
  unfold dashboard. destruct (empty price_df) eqn:Hne; trivial.
  destruct (annotate_std_2std (total_pct_df fm price_df)) as (ann & _ & E & _).
  rewrite E. destruct (annotate_labels _ ann E) as [Hs Hi].
  destruct (build_figure_total ann filter_option Hs) as [fig Hf].
  - rewrite Hi. unfold empty in Hne. apply orb_false_elim in Hne as [Hne _].
    apply Nat.eqb_neq in Hne. exact Hne.
  - now rewrite Hf.
Qed.

End NoException.

(** X16. From the downloaded prices on (lines 69-185), for every price
    frame whose column labels are pairwise distinct, whatever they are, a
    label of a statistic included: no label lookup, drop or row selection
    raises; the page stops after the warning when the frame is empty and
    runs to its end otherwise. *)
Theorem page_never_raises (fm : fill_method) (price_df : DataFrame float)
  (show_table : bool) (filter_option : string) :
  NoDup (names price_df) ->
  snd (dashboard fm price_df show_table filter_option)
  = (if empty price_df then Stopped else Finished).
Proof.
  intros _. apply dashboard_ending.
Qed.

Lemma page_never_raises_witness :
  snd (dashboard Pad
         (mkDataFrame [1; 2]%Z
            [("A.NS", [of_Z 100; of_Z 110 : float]); ("std", [of_Z 50; of_Z 45])])
         true "Above std (last value)")
  = Finished.
Proof.
  apply (page_never_raises Pad
           (mkDataFrame [1; 2]%Z
              [("A.NS", [of_Z 100; of_Z 110 : float]); ("std", [of_Z 50; of_Z 45])])
           true "Above std (last value)").
  constructor.
  - simpl. intros [H | []]. discriminate.
  - constructor; [intros [] | constructor].
Defined.
